(** * gaws: the signing and retrying dispatcher [SendAWSRequest]

    A shallow embedding of [src/gaws.go].  The dispatcher talks to three
    collaborators that live outside the package: the signer
    ([awsauth.Sign]), the HTTP transport ([http.Client.Do] followed by
    [ioutil.ReadAll] on the response body) and the JSON decoder
    ([json.Unmarshal]).  They are Section variables; everything the
    function itself does (the loop, the classification, the backoff
    arithmetic, the deferred closes) is written out. *)

From Stdlib Require Import ZArith List String Ascii Bool Lia.
From Stdlib Require Import Strings.Byte.
Import ListNotations.
Open Scope Z_scope.

Module Gaws.

(** ** Data *)

(** A Go [[]byte]: the nil slice, or an allocated slice with its content. *)
Definition slice : Type := option (list byte).

Definition nil_slice : slice := None.

(** [make([]byte, 0)] *)
Definition make0 : slice := Some [].

Definition content (s : slice) : list byte :=
  match s with
  | None => []
  | Some bs => bs
  end.

Definition slice_of_string (s : string) : slice := Some (list_byte_of_string s).

(** [type AWSError struct { Type string; Message string }] *)
Record AWSError : Type := mkAWSError {
  Type_ : string;
  Message : string
}.

(** [var exceededRetriesError] *)
Definition exceededRetriesError : AWSError :=
  {| Type_ := "GawsExceededMaxRetries";
     Message := "The maximum number of retries for this request was exceeded." |}.

(** [func (e AWSError) Error() string] *)
Definition Error (e : AWSError) : string :=
  (Type_ e ++ ": " ++ Message e)%string.

(** Values of Go's [error] interface that cross [SendAWSRequest]: the
    errors of the three collaborators, which the function hands on as they
    are, and [AWSError] values, which are errors through [Error]. *)
Inductive error : Type :=
| TransportError (msg : string)
| ReadError (msg : string)
| DecodeError (msg : string)
| ServiceError (e : AWSError).

(** What the dispatcher uses of an [*http.Request]. *)
Record Request : Type := mkRequest {
  Method : string;
  URL : string;
  Header : list (string * list string);
  ReqBody : list byte
}.

(** What the dispatcher uses of an [*http.Response]: the status code, and
    what [ioutil.ReadAll(resp.Body)] yields. *)
Record Response : Type := mkResponse {
  StatusCode : Z;
  Body : slice * option error
}.

(** The pair [(resp, err)] of [client.Do]; [None] is Go's nil. *)
Definition DoResult : Type := (option Response * option error)%type.

(** ** Observable effects *)

Inductive Event : Type :=
| Signed (req : Request)           (* awsauth.Sign(req), on the request as given *)
| Sent (try : Z) (req : Request)   (* client.Do(req) in iteration try *)
| Slept (d : Z)                    (* time.Sleep(d), d in nanoseconds *)
| Closed (try : Z).                (* deferred resp.Body.Close() of iteration try *)

Inductive Outcome : Type :=
| Return (body : slice) (err : option error)
| Panic.                           (* nil pointer dereference *)

Definition Run : Type := (Outcome * list Event)%type.

Definition emit (e : Event) (r : Run) : Run := (fst r, e :: snd r).

(** Leaving the function runs the deferred closes, last deferred first. *)
Definition leave (defers : list Z) (o : Outcome) : Run := (o, map Closed defers).

(** ** Backoff arithmetic *)

(** Two's-complement wrap-around of [int64] arithmetic. *)
Definition int64_wrap (z : Z) : Z := (z + 2 ^ 63) mod 2 ^ 64 - 2 ^ 63.

(** [time.Millisecond], in nanoseconds. *)
Definition Millisecond : Z := 1000000.

Section Backoff.

(** Go leaves the conversion of a float64 that int64 cannot represent to
    the implementation. *)
Variable conv_unrep : Z -> Z.

(** [time.Duration(100 * math.Pow(2.0, float64(try)))].  Powers of two
    and their product with 100 are exact in float64; the conversion
    truncates toward zero; from [try = 57] on the product is [2^63] or
    more. *)
Definition sleepDuration (try : Z) : Z :=
  if try <? 0 then 100 / 2 ^ (- try)
  else if try <=? 56 then 100 * 2 ^ try
  else int64_wrap (conv_unrep try).

(** The argument of [time.Sleep]: [sleepDuration * time.Millisecond]. *)
Definition sleepArg (try : Z) : Z :=
  int64_wrap (sleepDuration try * Millisecond).

End Backoff.

(** ** The dispatcher *)

Section Dispatcher.

Variable Sign : Request -> Request.
Variable Do : Z -> Request -> DoResult.
Variable Unmarshal : list byte -> AWSError * option error.
Variable conv_unrep : Z -> Z.

(** The package variable [MaxTries], read by the loop test. *)
Variable MaxTries : Z.

(** The [for] loop from the state [(try, lastBody)], with the list of
    iterations whose response body is awaiting its deferred close.
    [req] is the object the pointer refers to; the loop never writes
    to it.  [Do try req] is the transport's answer to the call made in
    iteration [try]. *)
Fixpoint loop (fuel : nat) (req : Request) (try : Z) (lastBody : slice)
         (defers : list Z) {struct fuel} : option Run :=
  if try <? MaxTries then
    match fuel with
    | O => None
    | S fuel' =>
      option_map (emit (Sent try req))
        (let (resp, err) := Do try req in
         match resp with
         | None =>
           (* defer resp.Body.Close() reads resp.Body through nil *)
           Some (leave defers Panic)
         | Some resp =>
           let defers := try :: defers in
           match err with
           | Some err => Some (leave defers (Return make0 (Some err)))
           | None =>
             let (body, err) := Body resp in
             match err with
             | Some err => Some (leave defers (Return body (Some err)))
             | None =>
               if StatusCode resp <? 400 then
                 Some (leave defers (Return body None))
               else
                 let (error, err) := Unmarshal (content body) in
                 match err with
                 | Some err => Some (leave defers (Return body (Some err)))
                 | None =>
                   if negb (Type_ error =? "Throttling")%string
                      && (StatusCode resp <=? 500)
                   then Some (leave defers (Return body (Some (ServiceError error))))
                   else
                     option_map (emit (Slept (sleepArg conv_unrep try)))
                       (loop fuel' req (try + 1) body defers)
                 end
             end
           end
         end)
    end
  else
    Some (leave defers (Return lastBody (Some (ServiceError exceededRetriesError)))).

(** [func SendAWSRequest(req *http.Request) ([]byte, error)] *)
Definition SendAWSRequest (req : Request) : option Run :=
  option_map (emit (Signed req))
    (loop (Z.to_nat (MaxTries - 1)) (Sign req) 1 nil_slice []).

End Dispatcher.

(** ** Reading a run *)

(** The requests handed to [client.Do], in order. *)
Fixpoint sends (tr : list Event) : list Request :=
  match tr with
  | [] => []
  | Sent _ req :: tr' => req :: sends tr'
  | _ :: tr' => sends tr'
  end.

(** The arguments of [time.Sleep], in order. *)
Fixpoint sleeps (tr : list Event) : list Z :=
  match tr with
  | [] => []
  | Slept d :: tr' => d :: sleeps tr'
  | _ :: tr' => sleeps tr'
  end.

(** The requests given to [awsauth.Sign], in order. *)
Fixpoint signings (tr : list Event) : list Request :=
  match tr with
  | [] => []
  | Signed req :: tr' => req :: signings tr'
  | _ :: tr' => signings tr'
  end.

(** The iterations whose deferred close ran, in order. *)
Fixpoint closes (tr : list Event) : list Z :=
  match tr with
  | [] => []
  | Closed t :: tr' => t :: closes tr'
  | _ :: tr' => closes tr'
  end.

(** The time asked of [time.Sleep] in all, in nanoseconds. *)
Definition total (ds : list Z) : Z := fold_right Z.add 0 ds.

(** Whether a string holds a colon. *)
Fixpoint has_colon (s : string) : bool :=
  match s with
  | EmptyString => false
  | String c s' => (c =? ":")%char || has_colon s'
  end.

(** [try; try + 1; ...], [n] loop counters. *)
Fixpoint counters (try : Z) (n : nat) : list Z :=
  match n with
  | O => []
  | S n' => try :: counters (try + 1) n'
  end.

(** What one iteration decides, read off the loop body: leave with an
    outcome (and whether this iteration's close was deferred before), or
    go round again with this body as [lastBody]. *)
Inductive Verdict : Type :=
| Stop (o : Outcome) (deferred : bool)
| Again (body : slice).

Definition verdict (Unmarshal : list byte -> AWSError * option error)
           (r : DoResult) : Verdict :=
  match r with
  | (None, _) => Stop Panic false
  | (Some resp, Some err) => Stop (Return make0 (Some err)) true
  | (Some resp, None) =>
    match Body resp with
    | (body, Some err) => Stop (Return body (Some err)) true
    | (body, None) =>
      if StatusCode resp <? 400 then Stop (Return body None) true
      else
        match Unmarshal (content body) with
        | (_, Some err) => Stop (Return body (Some err)) true
        | (error, None) =>
          if negb (Type_ error =? "Throttling")%string && (StatusCode resp <=? 500)
          then Stop (Return body (Some (ServiceError error))) true
          else Again body
        end
    end
  end.

(** The condition under which the loop body reaches its backoff: a
    response came, its body was read and decoded, and the decoded kind is
    the throttling one or the status is above 500. *)
Definition retried (Unmarshal : list byte -> AWSError * option error)
           (r : DoResult) (body : slice) : Prop :=
  exists resp e,
    r = (Some resp, None) /\ Body resp = (body, None) /\
    400 <= StatusCode resp /\ Unmarshal (content body) = (e, None) /\
    (Type_ e = "Throttling"%string \/ 500 < StatusCode resp).

(** What the loop may add to the trace while it works on [req] from
    counter [try] under the bound [bound]. *)
Definition loop_event (req : Request) (try bound : Z) (e : Event) : Prop :=
  match e with
  | Signed _ => False
  | Sent t q => try <= t < bound /\ q = req
  | Slept _ | Closed _ => True
  end.

(** [func defaultRetryPredicate(status int, body []byte) (bool, error)]
    of [gaws_test.go]: whether to retry, and the error to report. *)
Definition defaultRetryPredicate
           (Unmarshal : list byte -> AWSError * option error)
           (status : Z) (body : slice) : bool * option error :=
  if status <? 400 then (false, None)
  else
    let (error, err) := Unmarshal (content body) in
    match err with
    | Some err => (false, Some err)
    | None =>
      if negb (Type_ error =? "Throttling")%string && (status <=? 500)
      then (false, Some (ServiceError error))
      else (true, Some (ServiceError error))
    end.

(** ** The endpoints of [gaws_test.go] *)

Definition notFoundError : AWSError :=
  {| Type_ := "NotFound"; Message := "Could not find something" |}.

Definition throttlingError : AWSError :=
  {| Type_ := "Throttling"; Message := "You have been throttled" |}.

Definition internalFailure : AWSError :=
  {| Type_ := "InternalFailure"; Message := "The server failed" |}.

Definition dq : string := String (ascii_of_nat 34) EmptyString.

(** The text [json.Marshal] gives for an [AWSError] of plain ASCII
    strings: an object with the members [__type] and [message]. *)
Definition marshal (e : AWSError) : string :=
  ("{" ++ dq ++ "__type" ++ dq ++ ":" ++ dq ++ Type_ e ++ dq ++ ","
       ++ dq ++ "message" ++ dq ++ ":" ++ dq ++ Message e ++ dq ++ "}")%string.

Definition zeroError : AWSError := {| Type_ := EmptyString; Message := EmptyString |}.

(** [json.Unmarshal] on the bodies the test endpoints write: the three
    documents decode, any other text is taken for the non-JSON body. *)
Definition testUnmarshal (data : list byte) : AWSError * option error :=
  let s := string_of_list_byte data in
  match find (fun e => (s =? marshal e)%string)
             [notFoundError; throttlingError; internalFailure] with
  | Some e => (e, None)
  | None => (zeroError, Some (DecodeError "invalid character 'I' looking for beginning of value"))
  end.

Definition respond (status : Z) (text : string) : DoResult :=
  (Some {| StatusCode := status; Body := (slice_of_string text, None) |}, None).

Definition testHTTP200 (try : Z) (req : Request) : DoResult := respond 200 "OK".

Definition testHTTP404 (try : Z) (req : Request) : DoResult :=
  respond 404 (marshal notFoundError).

Definition testHTTP404NonJson (try : Z) (req : Request) : DoResult :=
  respond 404 "I am not JSON!".

Definition testAWSThrottle (try : Z) (req : Request) : DoResult :=
  respond 400 (marshal throttlingError).

(** A server that answers 500 with an error document. *)
Definition testHTTP500 (try : Z) (req : Request) : DoResult :=
  respond 500 (marshal internalFailure).

(** A host that cannot be reached: no response, only an error. *)
Definition testUnreachable (try : Z) (req : Request) : DoResult :=
  (None, Some (TransportError "dial tcp: connection refused")).

(** A server that throttles the first two requests and then answers 200. *)
Definition testThrottleTwice (try : Z) (req : Request) : DoResult :=
  if try <? 3 then respond 400 (marshal throttlingError) else respond 200 "OK".

(** A response whose body breaks off while it is read. *)
Definition testBrokenBody (try : Z) (req : Request) : DoResult :=
  (Some {| StatusCode := 200;
           Body := (slice_of_string "O", Some (ReadError "unexpected EOF")) |}, None).

Definition testRequest : Request :=
  {| Method := "GET"; URL := "http://127.0.0.1:8080"; Header := []; ReqBody := [] |}.

(** A signer that adds the two signature headers. *)
Definition testSign (req : Request) : Request :=
  {| Method := Method req; URL := URL req;
     Header := ("Authorization"%string, ["AWS4-HMAC-SHA256 test"%string])
                 :: ("X-Amz-Date"%string, ["20140101T000000Z"%string]) :: Header req;
     ReqBody := ReqBody req |}.

Definition testConv (try : Z) : Z := - 2 ^ 63.

Definition testRun (Do : Z -> Request -> DoResult) (MaxTries : Z) : option Run :=
  SendAWSRequest testSign Do testUnmarshal testConv MaxTries testRequest.

(** ** The callers' side: building a request *)

(** What a caller of the dispatcher ends with: its return value, or the
    panic on its way up. *)
Inductive Result (A : Type) : Type :=
| Returned (a : A)
| Panicked.

Arguments Returned {A} a.
Arguments Panicked {A}.

Definition Call (A : Type) : Type := option (Result A * list Event).

Section Building.

(** The error [url.Parse] finds in a URL, if any; [http.NewRequest]
    hands it on. *)
Variable URLError : string -> option error.

(** [textproto.CanonicalMIMEHeaderKey], which [Header.Set] applies to the
    key. *)
Variable CanonicalMIMEHeaderKey : string -> string.

(** [http.NewRequest(method, urlStr, body)]: a nil request beside the
    error when the URL does not parse, else a request with an empty
    header. *)
Definition NewRequest (method urlStr : string) (body : list byte)
  : option Request * option error :=
  match URLError urlStr with
  | Some err => (None, Some err)
  | None =>
    (Some {| Method := method; URL := urlStr; Header := []; ReqBody := body |},
     None)
  end.

(** [req.Header.Set(key, value)]: the canonical key gets the one value. *)
Definition Header_Set (key value : string) (req : Request) : Request :=
  let k := CanonicalMIMEHeaderKey key in
  {| Method := Method req; URL := URL req;
     Header := (k, [value])
                 :: filter (fun kv => negb (fst kv =? k)%string) (Header req);
     ReqBody := ReqBody req |}.

End Building.

(** ** The earlier dispatcher and stream operations

    [src/unnamed/part_000] is the package as it was when [SendAWSRequest]
    returned the response, with the table of regions; the second half of
    [src/kinesis/stream.go] is the stream code that went with it. *)

Module Earlier.

(** An [*http.Response] as a return value: nil, what [client.Do] gave,
    or the empty [&http.Response{}]. *)
Inductive ResponsePtr : Type :=
| nilResponse
| gotResponse (resp : Response)
| emptyResponse.

Definition ptr (resp : option Response) : ResponsePtr :=
  match resp with
  | None => nilResponse
  | Some r => gotResponse r
  end.

Inductive Outcome : Type :=
| Return (resp : ResponsePtr) (err : option error)
| Panic.

Definition Run : Type := (Outcome * list Event)%type.

Definition emit (e : Event) (r : Run) : Run := (fst r, e :: snd r).

Definition leave (defers : list Z) (o : Outcome) : Run := (o, map Closed defers).

Section Dispatcher.

Variable Sign : Request -> Request.
Variable Do : Z -> Request -> DoResult.
Variable Unmarshal : list byte -> AWSError * option error.
Variable conv_unrep : Z -> Z.
Variable MaxTries : Z.

(** The loop of part_000.  The error of [client.Do] is looked at first;
    the close is deferred only once the status is 400 or more; the body
    goes through [errorbuf.ReadFrom], whose error is dropped. *)
Fixpoint loop (fuel : nat) (req : Request) (try : Z) (defers : list Z)
         {struct fuel} : option Run :=
  if try <? MaxTries then
    match fuel with
    | O => None
    | S fuel' =>
      option_map (emit (Sent try req))
        (let (resp, err) := Do try req in
         match err with
         | Some err => Some (leave defers (Return (ptr resp) (Some err)))
         | None =>
           match resp with
           | None =>
             (* resp.StatusCode through nil *)
             Some (leave defers Panic)
           | Some resp =>
             if StatusCode resp <? 400 then
               Some (leave defers (Return (gotResponse resp) None))
             else
               let defers := try :: defers in
               let errorbuf := fst (Body resp) in
               let (error, err) := Unmarshal (content errorbuf) in
               match err with
               | Some err =>
                 Some (leave defers (Return (gotResponse resp) (Some err)))
               | None =>
                 if negb (Type_ error =? "Throttling")%string
                    && (StatusCode resp <=? 500)
                 then Some (leave defers
                                  (Return (gotResponse resp) (Some (ServiceError error))))
                 else
                   option_map (emit (Slept (sleepArg conv_unrep try)))
                     (loop fuel' req (try + 1) defers)
               end
           end
         end)
    end
  else
    Some (leave defers
                (Return emptyResponse
                        (Some (ServiceError
                                 {| Type_ := "GawsExceededMaxRetries";
                                    Message := "The maximum number of retries for this request was exceeded." |})))).

(** [func SendAWSRequest] of part_000: the response and the error. *)
Definition SendAWSRequest (req : Request) : option Run :=
  option_map (emit (Signed req))
    (loop (Z.to_nat (MaxTries - 1)) (Sign req) 1 []).

End Dispatcher.

(** [type Endpoints struct], [type AWSRegion struct] *)
Record Endpoints : Type := mkEndpoints {
  Kinesis : string;
  DynamoDB : string
}.

Record AWSRegion : Type := mkAWSRegion {
  RegionName : string;
  RegionEndpoints : Endpoints
}.

(** [var USEast1] *)
Definition USEast1 : AWSRegion :=
  {| RegionName := "us-east-1";
     RegionEndpoints :=
       {| Kinesis := "https://kinesis.us-east-1.amazonaws.com";
          DynamoDB := "https://dynamodb.us-east-1.amazonaws.com" |} |}.

(** A Go [map[string]AWSRegion], as its entries. *)
Definition RegionMap : Type := list (string * AWSRegion).

(** [m[key]]: the entry, or the zero [AWSRegion] when the key is absent. *)
Fixpoint index (m : RegionMap) (key : string) : AWSRegion :=
  match m with
  | [] => {| RegionName := EmptyString;
             RegionEndpoints := {| Kinesis := EmptyString; DynamoDB := EmptyString |} |}
  | (k, v) :: m' => if (k =? key)%string then v else index m' key
  end.

(** [var Regions] and [var Region], as the package sets them. *)
Definition Regions : RegionMap := [(RegionName USEast1, USEast1)].

Definition Region : string := "us-east-1".

(** [type Stream struct { Name string; Region string }] *)
Record Stream : Type := mkStream {
  Name : string;
  StreamRegion : string
}.

Definition noEndpoint : AWSError :=
  {| Type_ := "GawsNoEndpointForRegion";
     Message := "There is no Kinesis endpoint in this region" |}.

Section Streams.

(** The package variables [gaws.Regions] and [gaws.Region] at the time
    of the call. *)
Variable gaws_Regions : RegionMap.
Variable gaws_Region : string.

(** [func (s *Stream) getEndpoint() (string, error)], with the stream as
    the method leaves it. *)
Definition getEndpoint (s : Stream) : Stream * (string * option error) :=
  let s := if (StreamRegion s =? EmptyString)%string
           then {| Name := Name s; StreamRegion := gaws_Region |}
           else s in
  let endpoint := Kinesis (RegionEndpoints (index gaws_Regions (StreamRegion s))) in
  if (endpoint =? EmptyString)%string
  then (s, (endpoint, Some (ServiceError noEndpoint)))
  else (s, (endpoint, None)).

Variable Sign : Request -> Request.
Variable Do : Z -> Request -> DoResult.
Variable Unmarshal : list byte -> AWSError * option error.
Variable conv_unrep : Z -> Z.
Variable MaxTries : Z.
Variable URLError : string -> option error.
Variable CanonicalMIMEHeaderKey : string -> string.

(** [json.Marshal] of a [createStreamRequest]; the function drops its
    error. *)
Variable Marshal_createStreamRequest : Z -> string -> slice * option error.

(** [func CreateStream(name string, shardCount int) (Stream, error)] *)
Definition CreateStream (name : string) (shardCount : Z)
  : Call (Stream * option error) :=
  let stream := {| Name := EmptyString; StreamRegion := EmptyString |} in
  let '(stream, (url, err)) := getEndpoint stream in
  match err with
  | Some err => Some (Returned (stream, Some err), [])
  | None =>
    let (bodyAsJson, _) := Marshal_createStreamRequest shardCount name in
    let (req, _) := NewRequest URLError "POST" url (content bodyAsJson) in
    match req with
    | None => Some (Panicked, [])    (* req.Header through nil *)
    | Some req =>
      let req := Header_Set CanonicalMIMEHeaderKey
                            "X-Amz-Target" "Kinesis_20131202.CreateStream" req in
      let req := Header_Set CanonicalMIMEHeaderKey
                            "Content-Type" "application/x-amz-json-1.1" req in
      match SendAWSRequest Sign Do Unmarshal conv_unrep MaxTries req with
      | None => None
      | Some (Panic, tr) => Some (Panicked, tr)
      | Some (Return _ err, tr) =>
        let stream :=
            match err with
            | None => {| Name := name; StreamRegion := gaws_Region |}
            | Some _ => stream
            end in
        Some (Returned (stream, err), tr)
      end
    end
  end.

(** [base64.StdEncoding.EncodeToString] and [json.Marshal] of a
    [Record]; the function drops the error of the latter. *)
Variable EncodeToString : list byte -> string.
Variable Marshal_Record : string -> string -> string -> slice * option error.

(** [func (s *Stream) PutRecord(partitionKey string, data []byte) error],
    with the stream as the method leaves it. *)
Definition PutRecord (s : Stream) (partitionKey : string) (data : slice)
  : Call (Stream * option error) :=
  let '(s, (url, err)) := getEndpoint s in
  match err with
  | Some err => Some (Returned (s, Some err), [])
  | None =>
    let encodedData := EncodeToString (content data) in
    let (bodyAsJson, _) := Marshal_Record (Name s) encodedData partitionKey in
    let (req, _) := NewRequest URLError "POST" url (content bodyAsJson) in
    match req with
    | None => Some (Panicked, [])    (* req.Header through nil *)
    | Some req =>
      let req := Header_Set CanonicalMIMEHeaderKey
                            "X-Amz-Target" "Kinesis_20131202.PutRecord" req in
      let req := Header_Set CanonicalMIMEHeaderKey
                            "Content-Type" "application/x-amz-json-1.1" req in
      match SendAWSRequest Sign Do Unmarshal conv_unrep MaxTries req with
      | None => None
      | Some (Panic, tr) => Some (Panicked, tr)
      | Some (Return _ err, tr) => Some (Returned (s, err), tr)
      end
    end
  end.

End Streams.

End Earlier.

(** ** The stream operations of [src/kinesis/stream.go]

    The declarations of [Stream] and [KinesisService] are not among the
    sources; their fields are those the methods read and the tests of
    part_001 set: a name and a pointer to the service, which holds the
    endpoint. *)

Module Kinesis.

Record KinesisService : Type := mkKinesisService {
  Endpoint : string
}.

Record Stream : Type := mkStream {
  Name : string;
  Service : option KinesisService      (* *KinesisService, None for nil *)
}.

(** [type HashKeyRange], [type SequenceNumberRange], [type Shard] of
    part_002. *)
Inductive HashKeyRange : Type :=
| mkHashKeyRange (EndingHashKey StartingHashKey : string).

Inductive SequenceNumberRange : Type :=
| mkSequenceNumberRange (EndingSequenceNumber StartingSequenceNumber : string).

Record Shard : Type := mkShard {
  AdjacentParentShardId : string;
  ShardHashKeyRange : HashKeyRange;
  ParentShardId : string;
  ShardSequenceNumberRange : SequenceNumberRange;
  ShardId : string;
  stream : option Stream               (* *Stream, None for nil *)
}.

(** [type StreamDescription struct] and its zero value. *)
Record StreamDescription : Type := mkStreamDescription {
  HasMoreShards : bool;
  Shards : list Shard;
  StreamARN : string;
  StreamName : string;
  StreamStatus : string
}.

Definition zeroStreamDescription : StreamDescription :=
  {| HasMoreShards := false; Shards := []; StreamARN := EmptyString;
     StreamName := EmptyString; StreamStatus := EmptyString |}.

(** [type Record struct], [type GetRecordsResponse struct] and its zero
    value. *)
Inductive Record_ : Type :=
| mkRecord (Data PartitionKey SequenceNumber : string).

Record GetRecordsResponse : Type := mkGetRecordsResponse {
  NextShardIterator : string;
  Records : list Record_
}.

Definition zeroGetRecordsResponse : GetRecordsResponse :=
  {| NextShardIterator := EmptyString; Records := [] |}.

(** [type GetRecordsRequest struct] *)
Record GetRecordsRequest : Type := mkGetRecordsRequest {
  Limit : Z;
  ShardIterator : string
}.

(** The values the operations give to [json.Marshal]. *)
Inductive Payload : Type :=
| putRecordRequest (StreamName Data PartitionKey : string)
| streamDescriptionRequest (ExclusiveStartShardId : string) (Limit : Z)
                           (StreamName : string)
| getRecordsRequest (request : GetRecordsRequest)
| getShardIteratorRequest (ShardId ShardIteratorType StartingSequenceNumber
                           StreamName : string).

Section Operations.

Variable Sign : Request -> Request.
Variable Do : Z -> Request -> DoResult.
Variable Unmarshal : list byte -> AWSError * option error.
Variable conv_unrep : Z -> Z.
Variable MaxTries : Z.
Variable URLError : string -> option error.
Variable CanonicalMIMEHeaderKey : string -> string.

(** [base64.StdEncoding.EncodeToString], [json.Marshal], and
    [json.Unmarshal] into a zero [streamDescriptionResult],
    [GetRecordsResponse] and [getShardIteratorResponse]: what the target
    holds afterwards, and the error. *)
Variable EncodeToString : list byte -> string.
Variable Marshal : Payload -> slice * option error.
Variable Unmarshal_streamDescriptionResult
  : list byte -> StreamDescription * option error.
Variable Unmarshal_GetRecordsResponse
  : list byte -> GetRecordsResponse * option error.
Variable Unmarshal_getShardIteratorResponse
  : list byte -> string * option error.

(** The two [req.Header.Set] calls every operation makes. *)
Definition targeted (target : string) (req : Request) : Request :=
  Header_Set CanonicalMIMEHeaderKey "Content-Type" "application/x-amz-json-1.1"
    (Header_Set CanonicalMIMEHeaderKey "X-Amz-Target" target req).

(** [func (s *Stream) PutRecord(partitionKey string, data []byte) error] *)
Definition PutRecord (s : Stream) (partitionKey : string) (data : slice)
  : Call (option error) :=
  match Service s with
  | None => Some (Panicked, [])      (* s.Service.Endpoint through nil *)
  | Some service =>
    let url := Endpoint service in
    let encodedData := EncodeToString (content data) in
    let body := putRecordRequest (Name s) encodedData partitionKey in
    let (bodyAsJson, _) := Marshal body in
    let (req, _) := NewRequest URLError "POST" url (content bodyAsJson) in
    match req with
    | None => Some (Panicked, [])    (* req.Header through nil *)
    | Some req =>
      let req := targeted "Kinesis_20131202.PutRecord" req in
      match SendAWSRequest Sign Do Unmarshal conv_unrep MaxTries req with
      | None => None
      | Some (Panic, tr) => Some (Panicked, tr)
      | Some (Return _ err, tr) => Some (Returned err, tr)
      end
    end
  end.

(** [func (s *Stream) Delete() error] *)
Definition Delete (s : Stream) : Call (option error) :=
  match Service s with
  | None => Some (Panicked, [])
  | Some service =>
    let url := Endpoint service in
    let (req, _) := NewRequest URLError "POST" url [] in
    match req with
    | None => Some (Panicked, [])    (* req.Header through nil *)
    | Some req =>
      let req := targeted "Kinesis_20131202.DeleteStream" req in
      match SendAWSRequest Sign Do Unmarshal conv_unrep MaxTries req with
      | None => None
      | Some (Panic, tr) => Some (Panicked, tr)
      | Some (Return _ err, tr) => Some (Returned err, tr)
      end
    end
  end.

(** [func (s *Stream) Describe() (StreamDescription, error)] *)
Definition Describe (s : Stream) : Call (StreamDescription * option error) :=
  match Service s with
  | None => Some (Panicked, [])
  | Some service =>
    let url := Endpoint service in
    let body := streamDescriptionRequest EmptyString 0 (Name s) in
    let (bodyAsJson, _) := Marshal body in
    let (req, err) := NewRequest URLError "POST" url (content bodyAsJson) in
    match err with
    | Some err => Some (Returned (zeroStreamDescription, Some err), [])
    | None =>
      match req with
      | None => Some (Panicked, [])
      | Some req =>
        let req := targeted "Kinesis_20131202.DescribeStream" req in
        match SendAWSRequest Sign Do Unmarshal conv_unrep MaxTries req with
        | None => None
        | Some (Panic, tr) => Some (Panicked, tr)
        | Some (Return _ (Some err), tr) =>
          Some (Returned (zeroStreamDescription, Some err), tr)
        | Some (Return resp None, tr) =>
          let (result, err) := Unmarshal_streamDescriptionResult (content resp) in
          match err with
          | Some err => Some (Returned (zeroStreamDescription, Some err), tr)
          | None => Some (Returned (result, None), tr)
          end
        end
      end
    end
  end.

(** [func (s *Stream) GetRecords(request GetRecordsRequest)
    (GetRecordsResponse, error)] *)
Definition GetRecords (s : Stream) (request : GetRecordsRequest)
  : Call (GetRecordsResponse * option error) :=
  let result := zeroGetRecordsResponse in
  match Service s with
  | None => Some (Panicked, [])
  | Some service =>
    let url := Endpoint service in
    let (bodyAsJson, err) := Marshal (getRecordsRequest request) in
    match err with
    | Some err => Some (Returned (result, Some err), [])
    | None =>
      let (req, err) := NewRequest URLError "POST" url (content bodyAsJson) in
      match err with
      | Some err => Some (Returned (result, Some err), [])
      | None =>
        match req with
        | None => Some (Panicked, [])
        | Some req =>
          let req := targeted "Kinesis_20131202.GetRecords" req in
          match SendAWSRequest Sign Do Unmarshal conv_unrep MaxTries req with
          | None => None
          | Some (Panic, tr) => Some (Panicked, tr)
          | Some (Return _ (Some err), tr) => Some (Returned (result, Some err), tr)
          | Some (Return resp None, tr) =>
            let (result, err) := Unmarshal_GetRecordsResponse (content resp) in
            Some (Returned (result, err), tr)
          end
        end
      end
    end
  end.

(** [func (s *Shard) GetShardIterator(shardIteratorType string,
    startingSequenceNumber string) (string, error)] of part_002 *)
Definition GetShardIterator (s : Shard) (shardIteratorType : string)
           (startingSequenceNumber : string) : Call (string * option error) :=
  match stream s with
  | None => Some (Panicked, [])      (* s.stream.Service through nil *)
  | Some st =>
    match Service st with
    | None => Some (Panicked, [])
    | Some service =>
      let url := Endpoint service in
      let body := getShardIteratorRequest (ShardId s) shardIteratorType
                                          startingSequenceNumber (Name st) in
      let (bodyAsJson, _) := Marshal body in
      let (req, err) := NewRequest URLError "POST" url (content bodyAsJson) in
      match err with
      | Some err => Some (Returned (EmptyString, Some err), [])
      | None =>
        match req with
        | None => Some (Panicked, [])
        | Some req =>
          let req := targeted "Kinesis_20131202.GetShardIterator" req in
          match SendAWSRequest Sign Do Unmarshal conv_unrep MaxTries req with
          | None => None
          | Some (Panic, tr) => Some (Panicked, tr)
          | Some (Return _ (Some err), tr) =>
            Some (Returned (EmptyString, Some err), tr)
          | Some (Return resp None, tr) =>
            let (result, err) := Unmarshal_getShardIteratorResponse (content resp) in
            match err with
            | Some err => Some (Returned (EmptyString, Some err), tr)
            | None => Some (Returned (result, None), tr)
            end
          end
        end
      end
    end
  end.

End Operations.

End Kinesis.

(** ** Stand-ins for the collaborators of the stream operations *)

(** A URL that [url.Parse] refuses: the bracket of the host is not
    closed.  The other URLs of the stand-ins parse. *)
Definition badURL : string := "http://[::1".

Definition badURLError : error :=
  TransportError "parse http://[::1: missing ']' in host".

Definition testURLError (url : string) : option error :=
  if (url =? badURL)%string then Some badURLError else None.

(** The keys the operations set are in canonical form already. *)
Definition testCanonical (key : string) : string := key.

(** The encoding of the data of [TestPutRecord]. *)
Definition testEncode (data : list byte) : string := "SGVsbG8gd29ybGQh".

Definition testMarshal (v : Kinesis.Payload) : slice * option error :=
  (slice_of_string "{}", None).

Definition testMarshalCreate (shardCount : Z) (name : string) : slice * option error :=
  (slice_of_string "{}", None).

Definition testMarshalRecord (name data key : string) : slice * option error :=
  (slice_of_string "{}", None).

(** A document whose iterator decodes and whose records do not. *)
Definition halfRecords : string :=
  ("{" ++ dq ++ "NextShardIterator" ++ dq ++ ":" ++ dq ++ "it-1" ++ dq ++ ","
       ++ dq ++ "Records" ++ dq ++ ":5}")%string.

Definition testHalfRecords (try : Z) (req : Request) : DoResult :=
  respond 200 halfRecords.

Definition testUnmarshalRecords (data : list byte)
  : Kinesis.GetRecordsResponse * option error :=
  if (string_of_list_byte data =? halfRecords)%string
  then ({| Kinesis.NextShardIterator := "it-1"; Kinesis.Records := [] |},
        Some (DecodeError "json: cannot unmarshal number into Go value of type []kinesis.Record"))
  else (Kinesis.zeroGetRecordsResponse,
        Some (DecodeError "invalid character 'O' looking for beginning of value")).

Definition testUnmarshalDescription (data : list byte)
  : Kinesis.StreamDescription * option error :=
  (Kinesis.zeroStreamDescription,
   Some (DecodeError "invalid character 'O' looking for beginning of value")).

Definition testUnmarshalIterator (data : list byte) : string * option error :=
  (EmptyString,
   Some (DecodeError "invalid character 'O' looking for beginning of value")).

Definition testService : Kinesis.KinesisService :=
  {| Kinesis.Endpoint := "http://127.0.0.1:8080" |}.

Definition testStream : Kinesis.Stream :=
  {| Kinesis.Name := "foo"; Kinesis.Service := Some testService |}.

Definition testBadService : Kinesis.KinesisService :=
  {| Kinesis.Endpoint := badURL |}.

Definition testBadStream : Kinesis.Stream :=
  {| Kinesis.Name := "foo"; Kinesis.Service := Some testBadService |}.

Definition testShard (s : Kinesis.Stream) : Kinesis.Shard :=
  {| Kinesis.AdjacentParentShardId := EmptyString;
     Kinesis.ShardHashKeyRange := Kinesis.mkHashKeyRange "0" "0";
     Kinesis.ParentShardId := EmptyString;
     Kinesis.ShardSequenceNumberRange := Kinesis.mkSequenceNumberRange "0" "0";
     Kinesis.ShardId := "shardId-000000000000";
     Kinesis.stream := Some s |}.

Definition testRun0 (Do : Z -> Request -> DoResult) (MaxTries : Z)
  : option Earlier.Run :=
  Earlier.SendAWSRequest testSign Do testUnmarshal testConv MaxTries testRequest.

(** The two dispatchers end alike: both panic, or both return and with
    the same error. *)
Definition same_end (o : Outcome) (o' : Earlier.Outcome) : Prop :=
  match o, o' with
  | Panic, Earlier.Panic => True
  | Return _ err, Earlier.Return _ err' => err = err'
  | _, _ => False
  end.

(** ** Auxiliary facts *)

Section Facts.

Variable Sign : Request -> Request.
Variable Do : Z -> Request -> DoResult.
Variable Unmarshal : list byte -> AWSError * option error.
Variable conv_unrep : Z -> Z.
Variable MaxTries : Z.

Local Abbreviation loop' := (loop Do Unmarshal conv_unrep MaxTries).
Local Abbreviation send := (SendAWSRequest Sign Do Unmarshal conv_unrep MaxTries).
Local Abbreviation exhausted := (Some (ServiceError exceededRetriesError)).
Local Abbreviation loop0 := (Earlier.loop Do Unmarshal conv_unrep MaxTries).
Local Abbreviation send0 := (Earlier.SendAWSRequest Sign Do Unmarshal conv_unrep MaxTries).

Variable URLError : string -> option error.
Variable CanonicalMIMEHeaderKey : string -> string.
Variable EncodeToString : list byte -> string.
Variable gaws_Regions : Earlier.RegionMap.
Variable gaws_Region : string.
Variable Marshal_createStreamRequest : Z -> string -> slice * option error.
Variable Marshal_Record : string -> string -> string -> slice * option error.
Variable Marshal : Kinesis.Payload -> slice * option error.
Variable Unmarshal_streamDescriptionResult
  : list byte -> Kinesis.StreamDescription * option error.
Variable Unmarshal_GetRecordsResponse
  : list byte -> Kinesis.GetRecordsResponse * option error.
Variable Unmarshal_getShardIteratorResponse : list byte -> string * option error.

Local Abbreviation CreateStream0 :=
  (Earlier.CreateStream gaws_Regions gaws_Region Sign Do Unmarshal conv_unrep
                        MaxTries URLError CanonicalMIMEHeaderKey
                        Marshal_createStreamRequest).
Local Abbreviation PutRecord0 :=
  (Earlier.PutRecord gaws_Regions gaws_Region Sign Do Unmarshal conv_unrep
                     MaxTries URLError CanonicalMIMEHeaderKey
                     EncodeToString Marshal_Record).
Local Abbreviation PutRecord :=
  (Kinesis.PutRecord Sign Do Unmarshal conv_unrep MaxTries URLError
                     CanonicalMIMEHeaderKey EncodeToString Marshal).
Local Abbreviation Delete :=
  (Kinesis.Delete Sign Do Unmarshal conv_unrep MaxTries URLError
                  CanonicalMIMEHeaderKey).
Local Abbreviation Describe :=
  (Kinesis.Describe Sign Do Unmarshal conv_unrep MaxTries URLError
                    CanonicalMIMEHeaderKey Marshal
                    Unmarshal_streamDescriptionResult).
Local Abbreviation GetRecords :=
  (Kinesis.GetRecords Sign Do Unmarshal conv_unrep MaxTries URLError
                      CanonicalMIMEHeaderKey Marshal
                      Unmarshal_GetRecordsResponse).
Local Abbreviation GetShardIterator :=
  (Kinesis.GetShardIterator Sign Do Unmarshal conv_unrep MaxTries URLError
                            CanonicalMIMEHeaderKey Marshal
                            Unmarshal_getShardIteratorResponse).

Example Error_exceededRetriesError :
  Error exceededRetriesError =
  "GawsExceededMaxRetries: The maximum number of retries for this request was exceeded."%string.
Proof. reflexivity. Qed.

Lemma int64_wrap_small (z : Z) :
  - 2 ^ 63 <= z < 2 ^ 63 -> int64_wrap z = z.
Proof.
  intros Hz. unfold int64_wrap.
  rewrite Z.mod_small by lia. lia.
Qed.

Lemma sleepArg_exact (conv : Z -> Z) (k : Z) :
  0 <= k <= 36 -> sleepArg conv k = 100 * 2 ^ k * Millisecond.
Proof.
  intros Hk. unfold sleepArg, sleepDuration.
  destruct (Z.ltb_spec k 0) as [Hneg|_]; [lia|].
  destruct (Z.leb_spec k 56) as [_|Hbig]; [|lia].
  apply int64_wrap_small.
  assert (Hpos : 0 < 2 ^ k) by (apply Z.pow_pos_nonneg; lia).
  assert (Hle : 2 ^ k <= 2 ^ 36) by (apply Z.pow_le_mono_r; lia).
  change (2 ^ 36) with 68719476736 in Hle.
  unfold Millisecond.
  change (2 ^ 63) with 9223372036854775808. lia.
Qed.


Lemma nth_error_counters (n : nat) : forall (try : Z) (i : nat) (k : Z),
  nth_error (counters try n) i = Some k -> k = try + Z.of_nat i /\ (i < n)%nat.
Proof.
  induction n as [|n IH]; intros try i k H.
  - destruct i; discriminate.
  - destruct i as [|i]; cbn in H.
    + injection H as <-. split; lia.
    + apply IH in H. lia.
Qed.

Lemma sends_closed (ds : list Z) : sends (map Closed ds) = [].
Proof. induction ds; cbn; auto. Qed.

Lemma sleeps_closed (ds : list Z) : sleeps (map Closed ds) = [].
Proof. induction ds; cbn; auto. Qed.

Lemma in_closed (e : Event) (ds : list Z) :
  In e (map Closed ds) -> exists t, e = Closed t.
Proof.
  intros H. apply in_map_iff in H. destruct H as (t & <- & _). eauto.
Qed.

(** One turn of the loop, through the verdict of its iteration. *)
Lemma loop_iter (fuel : nat) (req : Request) (try : Z) (lb : slice) (ds : list Z) :
  try < MaxTries ->
  loop' (S fuel) req try lb ds =
  option_map (emit (Sent try req))
    match verdict Unmarshal (Do try req) with
    | Stop o d => Some (leave (if d then try :: ds else ds) o)
    | Again body =>
      option_map (emit (Slept (sleepArg conv_unrep try)))
                 (loop' fuel req (try + 1) body (try :: ds))
    end.
Proof.
  intros Hlt. cbn [loop].
  destruct (Z.ltb_spec try MaxTries) as [_|Hge]; [|lia].
  unfold verdict.
  destruct (Do try req) as [[resp|] [err|]]; try reflexivity.
  destruct (Body resp) as [body [rerr|]]; try reflexivity.
  destruct (StatusCode resp <? 400); try reflexivity.
  destruct (Unmarshal (content body)) as [e [derr|]]; try reflexivity.
  destruct (negb (Type_ e =? "Throttling")%string && (StatusCode resp <=? 500));
    reflexivity.
Qed.

(** The loop test fails: the function falls out of the loop. *)
Lemma loop_done (fuel : nat) (req : Request) (try : Z) (lb : slice) (ds : list Z) :
  MaxTries <= try ->
  loop' fuel req try lb ds = Some (leave ds (Return lb exhausted)).
Proof.
  intros Hge. destruct fuel; cbn [loop];
    destruct (Z.ltb_spec try MaxTries); try lia; reflexivity.
Qed.

(** The fuel [SendAWSRequest] gives the loop is enough. *)
Lemma loop_total (fuel : nat) (req : Request) :
  forall (try : Z) (lb : slice) (ds : list Z),
    (Z.to_nat (MaxTries - try) <= fuel)%nat ->
    exists r, loop' fuel req try lb ds = Some r.
Proof.
  induction fuel as [|fuel IH]; intros try lb ds Hfuel.
  - rewrite loop_done by lia. eauto.
  - destruct (Z_lt_le_dec try MaxTries) as [Hlt|Hge].
    + rewrite loop_iter by assumption.
      destruct (verdict Unmarshal (Do try req)) as [o d|body]; cbn; eauto.
      destruct (IH (try + 1) body (try :: ds)) as [r Hr]; [lia|].
      rewrite Hr. cbn. eauto.
    + rewrite loop_done by assumption. eauto.
Qed.

Lemma SendAWSRequest_total (req : Request) : exists r, send req = Some r.
Proof.
  unfold SendAWSRequest.
  destruct (loop_total (Z.to_nat (MaxTries - 1)) (Sign req) 1 nil_slice []) as [r Hr];
    [lia|].
  rewrite Hr. cbn. eauto.
Qed.

Lemma verdict_again (r : DoResult) (body : slice) :
  retried Unmarshal r body -> verdict Unmarshal r = Again body.
Proof.
  intros (resp & e & -> & Hbody & Hst & Hdec & Hkind).
  unfold verdict. rewrite Hbody, Hdec.
  destruct (Z.ltb_spec (StatusCode resp) 400) as [Hlow|_]; [lia|].
  destruct Hkind as [Hk|Hk].
  - rewrite Hk. reflexivity.
  - destruct (Z.leb_spec (StatusCode resp) 500) as [Hle|_]; [lia|].
    rewrite andb_false_r. reflexivity.
Qed.

Lemma verdict_again_inv (r : DoResult) (body : slice) :
  verdict Unmarshal r = Again body -> retried Unmarshal r body.
Proof.
  unfold verdict, retried.
  destruct r as [[resp|] [err|]]; try discriminate.
  destruct (Body resp) as [b [rerr|]] eqn:Hbody; try discriminate.
  destruct (Z.ltb_spec (StatusCode resp) 400) as [Hlow|Hhigh]; try discriminate.
  destruct (Unmarshal (content b)) as [e [derr|]] eqn:Hdec; try discriminate.
  destruct (String.eqb_spec (Type_ e) "Throttling") as [Hk|Hk]; cbn [negb andb].
  - intros [= <-]. exists resp, e. auto 6.
  - destruct (Z.leb_spec (StatusCode resp) 500) as [Hle|Hgt]; try discriminate.
    intros [= <-]. exists resp, e. auto 6.
Qed.

Lemma verdict_success_inv (r : DoResult) (body : slice) (d : bool) :
  verdict Unmarshal r = Stop (Return body None) d ->
  exists resp, r = (Some resp, None) /\ Body resp = (body, None) /\
               StatusCode resp < 400.
Proof.
  unfold verdict.
  destruct r as [[resp|] [err|]]; try discriminate.
  destruct (Body resp) as [b [rerr|]] eqn:Hbody; try discriminate.
  destruct (Z.ltb_spec (StatusCode resp) 400) as [Hlow|Hhigh].
  - intros [= <- _]. eauto.
  - destruct (Unmarshal (content b)) as [e [derr|]]; try discriminate.
    destruct (negb (Type_ e =? "Throttling")%string && (StatusCode resp <=? 500));
      discriminate.
Qed.

(** Every event of the loop is a send of [req] with a counter in range, a
    sleep or a close: the loop neither signs nor sends anything else. *)
Lemma loop_events (fuel : nat) (req : Request) :
  forall (try : Z) (lb : slice) (ds : list Z) (r : Run),
    loop' fuel req try lb ds = Some r ->
    forall e, In e (snd r) -> loop_event req try MaxTries e.
Proof.
  induction fuel as [|fuel IH]; intros try lb ds r Hrun e He;
    destruct (Z_lt_le_dec try MaxTries) as [Hlt|Hge].
  - cbn in Hrun. destruct (Z.ltb_spec try MaxTries); [discriminate|lia].
  - rewrite loop_done in Hrun by assumption. injection Hrun as <-.
    apply in_closed in He. destruct He as [t ->]. exact I.
  - rewrite loop_iter in Hrun by assumption.
    destruct (verdict Unmarshal (Do try req)) as [o d|body].
    + injection Hrun as <-. destruct He as [<-|He].
      * cbn. split; [lia|reflexivity].
      * apply in_closed in He. destruct He as [t ->]. exact I.
    + destruct (loop' fuel req (try + 1) body (try :: ds)) as [r'|] eqn:Hrest;
        [|discriminate].
      injection Hrun as <-. destruct He as [<-|[<-|He]].
      * cbn. split; [lia|reflexivity].
      * exact I.
      * specialize (IH _ _ _ _ Hrest e He).
        destruct e; cbn in *; auto. destruct IH. split; [lia|assumption].
  - rewrite loop_done in Hrun by assumption. injection Hrun as <-.
    apply in_closed in He. destruct He as [t ->]. exact I.
Qed.

(** An iteration whose verdict is to stop is the last one, and its
    outcome is the outcome of the call. *)
Lemma loop_stops (fuel : nat) (req : Request) :
  forall (try : Z) (lb : slice) (ds : list Z) (r : Run)
         (t : Z) (o : Outcome) (d : bool),
    loop' fuel req try lb ds = Some r ->
    In (Sent t req) (snd r) ->
    verdict Unmarshal (Do t req) = Stop o d ->
    fst r = o /\ forall t' q, In (Sent t' q) (snd r) -> t' <= t.
Proof.
  induction fuel as [|fuel IH]; intros try lb ds r t o d Hrun Hin Hv;
    destruct (Z_lt_le_dec try MaxTries) as [Hlt|Hge].
  - cbn in Hrun. destruct (Z.ltb_spec try MaxTries); [discriminate|lia].
  - rewrite loop_done in Hrun by assumption. injection Hrun as <-.
    apply in_closed in Hin. destruct Hin as [? [=]].
  - rewrite loop_iter in Hrun by assumption.
    destruct (verdict Unmarshal (Do try req)) as [o' d'|body] eqn:Hhere.
    + injection Hrun as <-. destruct Hin as [[= ->]|Hin].
      * rewrite Hhere in Hv. injection Hv as -> ->. split; [reflexivity|].
        intros t' q [[= -> _]|Hc]; [lia|].
        apply in_closed in Hc. destruct Hc as [? [=]].
      * apply in_closed in Hin. destruct Hin as [? [=]].
    + destruct (loop' fuel req (try + 1) body (try :: ds)) as [r'|] eqn:Hrest;
        [|discriminate].
      injection Hrun as <-. destruct Hin as [[= ->]|[[=]|Hin]].
      * rewrite Hhere in Hv. discriminate.
      * pose proof (loop_events _ _ _ _ _ _ Hrest _ Hin) as [Hfrom _].
        destruct (IH _ _ _ _ _ _ _ Hrest Hin Hv) as [Ho Hlast].
        split; [exact Ho|].
        intros t' q [[= -> _]|[[=]|Hc]]; [lia|eauto].
  - rewrite loop_done in Hrun by assumption. injection Hrun as <-.
    apply in_closed in Hin. destruct Hin as [? [=]].
Qed.

(** The only way out with a nil error is a response below 400. *)
Lemma loop_success_inv (fuel : nat) (req : Request) :
  forall (try : Z) (lb : slice) (ds : list Z) (body : slice) (tr : list Event),
    loop' fuel req try lb ds = Some (Return body None, tr) ->
    exists t resp, try <= t < MaxTries /\ Do t req = (Some resp, None) /\
                   Body resp = (body, None) /\ StatusCode resp < 400.
Proof.
  induction fuel as [|fuel IH]; intros try lb ds body tr Hrun;
    destruct (Z_lt_le_dec try MaxTries) as [Hlt|Hge];
    try (rewrite loop_done in Hrun by assumption; discriminate).
  - cbn in Hrun. destruct (Z.ltb_spec try MaxTries); [discriminate|lia].
  - rewrite loop_iter in Hrun by assumption.
    destruct (verdict Unmarshal (Do try req)) as [o d|b] eqn:Hhere.
    + injection Hrun as -> _.
      apply verdict_success_inv in Hhere. destruct Hhere as (resp & Hdo & Hb & Hst).
      exists try, resp. repeat split; auto; lia.
    + destruct (loop' fuel req (try + 1) b (try :: ds)) as [[o' tr']|] eqn:Hrest;
        [|discriminate].
      injection Hrun as -> _.
      destruct (IH _ _ _ _ _ Hrest) as (t & resp & Ht & Hrest').
      exists t, resp. split; [lia|exact Hrest'].
Qed.

(** The sleeps of the loop are those of consecutive counters from [try],
    all below [MaxTries]. *)
Lemma loop_sleeps (fuel : nat) (req : Request) :
  forall (try : Z) (lb : slice) (ds : list Z) (r : Run),
    loop' fuel req try lb ds = Some r ->
    exists n, sleeps (snd r) = map (sleepArg conv_unrep) (counters try n).
Proof.
  induction fuel as [|fuel IH]; intros try lb ds r Hrun;
    destruct (Z_lt_le_dec try MaxTries) as [Hlt|Hge];
    try (rewrite loop_done in Hrun by assumption; injection Hrun as <-;
         exists 0%nat; apply sleeps_closed).
  - cbn in Hrun. destruct (Z.ltb_spec try MaxTries); [discriminate|lia].
  - rewrite loop_iter in Hrun by assumption.
    destruct (verdict Unmarshal (Do try req)) as [o d|b].
    + injection Hrun as <-. exists 0%nat. cbn. apply sleeps_closed.
    + destruct (loop' fuel req (try + 1) b (try :: ds)) as [r'|] eqn:Hrest;
        [|discriminate].
      injection Hrun as <-. destruct (IH _ _ _ _ Hrest) as [n Hn].
      exists (S n). cbn. rewrite Hn. reflexivity.
Qed.

(** When every iteration from [try] on is retried, the loop runs
    [MaxTries - try] iterations, each with one send and one sleep, and
    falls out with the exhaustion error. *)
Lemma loop_exhaust (fuel : nat) (req : Request) :
  forall (try : Z) (lb : slice) (ds : list Z),
    (Z.to_nat (MaxTries - try) <= fuel)%nat ->
    (forall t, try <= t < MaxTries -> exists b, retried Unmarshal (Do t req) b) ->
    exists body tr,
      loop' fuel req try lb ds = Some (Return body exhausted, tr) /\
      List.length (sends tr) = Z.to_nat (MaxTries - try) /\
      sleeps tr = map (sleepArg conv_unrep) (counters try (Z.to_nat (MaxTries - try))).
Proof.
  induction fuel as [|fuel IH]; intros try lb ds Hfuel Hall;
    destruct (Z_lt_le_dec try MaxTries) as [Hlt|Hge];
    try (rewrite loop_done by assumption; exists lb, (map Closed ds);
         replace (Z.to_nat (MaxTries - try)) with 0%nat by lia;
         rewrite sends_closed, sleeps_closed; auto).
  - lia.
  - rewrite loop_iter by assumption.
    destruct (Hall try) as [b Hb]; [lia|].
    rewrite (verdict_again _ _ Hb).
    destruct (IH (try + 1) b (try :: ds)) as (body & tr & Hrun & Hsends & Hsleeps).
    { lia. }
    { intros t Ht. apply Hall. lia. }
    rewrite Hrun. cbn [option_map emit fst snd].
    eexists _, _. split; [reflexivity|].
    replace (Z.to_nat (MaxTries - try)) with (S (Z.to_nat (MaxTries - (try + 1))))
      by lia.
    cbn. rewrite Hsends, Hsleeps. auto.
Qed.

(** ** What the code does where a claim fails *)

(** Status 500 is on the returning side of the loop body's test. *)
Lemma status_500_returned
      (req : Request) (resp : Response) (body : slice) (e : AWSError) :
  1 < MaxTries ->
  Do 1 (Sign req) = (Some resp, None) ->
  Body resp = (body, None) ->
  StatusCode resp = 500 ->
  Unmarshal (content body) = (e, None) ->
  Type_ e <> "Throttling"%string ->
  send req = Some (Return body (Some (ServiceError e)),
                   [Signed req; Sent 1 (Sign req); Closed 1]).
Proof.
  intros Hmax Hdo Hbody Hst Hdec Hkind. unfold SendAWSRequest.
  replace (Z.to_nat (MaxTries - 1)) with (S (Z.to_nat (MaxTries - 2))) by lia.
  rewrite loop_iter by assumption.
  unfold verdict. rewrite Hdo, Hbody, Hdec, Hst.
  destruct (String.eqb_spec (Type_ e) "Throttling"); [contradiction|reflexivity].
Qed.

(** A call whose every attempt is retried sends [MaxTries - 1] times. *)
Lemma exhausting_call_sends (req : Request) :
  (forall t, 1 <= t < MaxTries ->
             exists b, retried Unmarshal (Do t (Sign req)) b) ->
  exists body tr,
    send req = Some (Return body exhausted, tr) /\
    List.length (sends tr) = Z.to_nat (MaxTries - 1).
Proof.
  intros Hall. unfold SendAWSRequest.
  destruct (loop_exhaust (Z.to_nat (MaxTries - 1)) (Sign req) 1 nil_slice [])
    as (body & tr & Hrun & Hsends & _); [lia|exact Hall|].
  rewrite Hrun. exists body, (Signed req :: tr). split; [reflexivity|exact Hsends].
Qed.

(** A nil response panics at the [defer], whatever the error beside it. *)
Lemma nil_response_panics (req : Request) (err : option error) :
  1 < MaxTries ->
  Do 1 (Sign req) = (None, err) ->
  send req = Some (Panic, [Signed req; Sent 1 (Sign req)]).
Proof.
  intros Hmax Hdo. unfold SendAWSRequest.
  replace (Z.to_nat (MaxTries - 1)) with (S (Z.to_nat (MaxTries - 2))) by lia.
  rewrite loop_iter by assumption.
  unfold verdict. rewrite Hdo. destruct err; reflexivity.
Qed.

(** An error that comes with a response is returned at once, with an
    empty body. *)
Lemma error_with_response_returned (req : Request) (resp : Response) (err : error) :
  1 < MaxTries ->
  Do 1 (Sign req) = (Some resp, Some err) ->
  send req = Some (Return make0 (Some err),
                   [Signed req; Sent 1 (Sign req); Closed 1]).
Proof.
  intros Hmax Hdo. unfold SendAWSRequest.
  replace (Z.to_nat (MaxTries - 1)) with (S (Z.to_nat (MaxTries - 2))) by lia.
  rewrite loop_iter by assumption.
  unfold verdict. rewrite Hdo. reflexivity.
Qed.

(** ** The claims that hold of the code *)

(** C3.  When every attempt the loop makes is retried, the call ends with
    the fixed error [exceededRetriesError]: its kind is
    "GawsExceededMaxRetries" whatever the endpoint answered, and so never
    "Throttling". *)
Theorem exhaustion_reports_sentinel (req : Request) :
  (forall t, 1 <= t < MaxTries ->
             exists b, retried Unmarshal (Do t (Sign req)) b) ->
  exists body err tr,
    send req = Some (Return body (Some (ServiceError err)), tr) /\
    err = exceededRetriesError /\
    Type_ err = "GawsExceededMaxRetries"%string /\
    Type_ err <> "Throttling"%string.
Proof.
  intros Hall. unfold SendAWSRequest.
  destruct (loop_exhaust (Z.to_nat (MaxTries - 1)) (Sign req) 1 nil_slice [])
    as (body & tr & Hrun & _); [lia|exact Hall|].
  rewrite Hrun. cbn [option_map emit fst snd].
  exists body, exceededRetriesError, (Signed req :: tr).
  repeat split; try reflexivity. discriminate.
Qed.

(** C5.  A first response below 400 is returned at once: the body as
    read, a nil error, one send, no sleep.  And a nil error comes from
    nowhere else: some attempt's response was below 400 and the body
    returned is its body. *)
Theorem success_path (req : Request) :
  (forall resp body,
      1 < MaxTries ->
      Do 1 (Sign req) = (Some resp, None) ->
      Body resp = (body, None) ->
      StatusCode resp < 400 ->
      send req = Some (Return body None,
                       [Signed req; Sent 1 (Sign req); Closed 1])) /\
  (forall body tr,
      send req = Some (Return body None, tr) ->
      exists t resp, 1 <= t < MaxTries /\
                     Do t (Sign req) = (Some resp, None) /\
                     Body resp = (body, None) /\ StatusCode resp < 400).
Proof.
  split.
  - intros resp body Hmax Hdo Hbody Hst. unfold SendAWSRequest.
    replace (Z.to_nat (MaxTries - 1)) with (S (Z.to_nat (MaxTries - 2))) by lia.
    rewrite loop_iter by assumption.
    unfold verdict. rewrite Hdo, Hbody.
    destruct (Z.ltb_spec (StatusCode resp) 400); [reflexivity|lia].
  - intros body tr Hrun. unfold SendAWSRequest in Hrun.
    destruct (loop' (Z.to_nat (MaxTries - 1)) (Sign req) 1 nil_slice [])
      as [[o tr']|] eqn:Hloop; [|discriminate].
    cbn in Hrun. injection Hrun as -> _.
    exact (loop_success_inv _ _ _ _ _ _ _ Hloop).
Qed.

(** C6.  A first response with status in [400, 500) whose body decodes to
    a kind other than "Throttling" ends the call: the decoded error is
    returned as it is, after one send and without any sleep. *)
Theorem client_error_returned_verbatim
        (req : Request) (resp : Response) (body : slice) (e : AWSError) :
  1 < MaxTries ->
  Do 1 (Sign req) = (Some resp, None) ->
  Body resp = (body, None) ->
  400 <= StatusCode resp < 500 ->
  Unmarshal (content body) = (e, None) ->
  Type_ e <> "Throttling"%string ->
  send req = Some (Return body (Some (ServiceError e)),
                   [Signed req; Sent 1 (Sign req); Closed 1]).
Proof.
  intros Hmax Hdo Hbody Hst Hdec Hkind. unfold SendAWSRequest.
  replace (Z.to_nat (MaxTries - 1)) with (S (Z.to_nat (MaxTries - 2))) by lia.
  rewrite loop_iter by assumption.
  unfold verdict. rewrite Hdo, Hbody, Hdec.
  destruct (Z.ltb_spec (StatusCode resp) 400); [lia|].
  destruct (String.eqb_spec (Type_ e) "Throttling"); [contradiction|].
  destruct (Z.leb_spec (StatusCode resp) 500); [reflexivity|lia].
Qed.

(** C7.  A response with status 400 or more whose body does not decode
    ends the call with the decoder's error.  As the first response: one
    send, no sleep.  In any iteration: the outcome is that error and no
    later iteration sends. *)
Theorem undecodable_error_body_is_fatal
        (req : Request) (resp : Response) (body : slice)
        (e : AWSError) (err : error) :
  400 <= StatusCode resp ->
  Body resp = (body, None) ->
  Unmarshal (content body) = (e, Some err) ->
  (1 < MaxTries ->
   Do 1 (Sign req) = (Some resp, None) ->
   send req = Some (Return body (Some err),
                    [Signed req; Sent 1 (Sign req); Closed 1])) /\
  (forall r t,
      send req = Some r ->
      In (Sent t (Sign req)) (snd r) ->
      Do t (Sign req) = (Some resp, None) ->
      fst r = Return body (Some err) /\
      forall t' q, In (Sent t' q) (snd r) -> t' <= t).
Proof.
  intros Hst Hbody Hdec.
  assert (Hv : forall t, Do t (Sign req) = (Some resp, None) ->
                         verdict Unmarshal (Do t (Sign req))
                         = Stop (Return body (Some err)) true).
  { intros t Hdo. unfold verdict. rewrite Hdo, Hbody, Hdec.
    destruct (Z.ltb_spec (StatusCode resp) 400); [lia|reflexivity]. }
  split.
  - intros Hmax Hdo. unfold SendAWSRequest.
    replace (Z.to_nat (MaxTries - 1)) with (S (Z.to_nat (MaxTries - 2))) by lia.
    rewrite loop_iter by assumption. rewrite (Hv 1 Hdo). reflexivity.
  - intros r t Hrun Hin Hdo. unfold SendAWSRequest in Hrun.
    destruct (loop' (Z.to_nat (MaxTries - 1)) (Sign req) 1 nil_slice [])
      as [r'|] eqn:Hloop; [|discriminate].
    injection Hrun as <-. cbn [emit fst snd] in *.
    destruct Hin as [[=]|Hin].
    destruct (loop_stops _ _ _ _ _ _ _ _ _ Hloop Hin (Hv t Hdo)) as [Ho Hlast].
    split; [exact Ho|].
    intros t' q [[=]|Hc]. eauto.
Qed.

(** C9.  Every call signs once, before anything is sent, and every send
    of the call, the first like the later ones, hands the transport the
    request as the signer left it: same method, URL, headers and body. *)
Theorem signed_once_and_resent_unchanged (req : Request) :
  exists o tr,
    send req = Some (o, Signed req :: tr) /\
    signings (Signed req :: tr) = [req] /\
    Forall (fun q => q = Sign req) (sends tr) /\
    Forall (fun q => Method q = Method (Sign req) /\ URL q = URL (Sign req) /\
                     Header q = Header (Sign req) /\
                     ReqBody q = ReqBody (Sign req)) (sends tr).
Proof.
  unfold SendAWSRequest.
  destruct (loop_total (Z.to_nat (MaxTries - 1)) (Sign req) 1 nil_slice [])
    as [[o tr] Hrun]; [lia|].
  rewrite Hrun. exists o, tr. split; [reflexivity|].
  pose proof (loop_events _ _ _ _ _ _ Hrun) as Hev. cbn [snd] in Hev.
  clear Hrun. induction tr as [|e tr IH].
  - repeat split; constructor.
  - destruct IH as (Hs & Hq & Hf); [intros e' He'; apply Hev; right; exact He'|].
    specialize (Hev e (or_introl eq_refl)).
    destruct e as [q|t q|d|t]; cbn in *; try contradiction; auto.
    destruct Hev as [_ ->]. auto 8.
Qed.

(** C10.  With [MaxTries] at 1 or below the loop body never runs: the
    request is signed, nothing is sent, and the call returns the nil
    slice with the exhaustion error. *)
Theorem no_attempt_when_MaxTries_at_most_1 (req : Request) :
  MaxTries <= 1 ->
  send req = Some (Return nil_slice (Some (ServiceError exceededRetriesError)),
                   [Signed req]) /\
  Type_ exceededRetriesError = "GawsExceededMaxRetries"%string.
Proof.
  intros Hmax. split; [|reflexivity].
  unfold SendAWSRequest. rewrite loop_done by lia. reflexivity.
Qed.






(** ** Further properties of the dispatcher *)

Lemma sends_app (a b : list Event) : sends (a ++ b) = sends a ++ sends b.
Proof.
  induction a as [|e a IH]; [reflexivity|].
  destruct e; cbn; rewrite ?IH; reflexivity.
Qed.

Lemma sleeps_app (a b : list Event) : sleeps (a ++ b) = sleeps a ++ sleeps b.
Proof.
  induction a as [|e a IH]; [reflexivity|].
  destruct e; cbn; rewrite ?IH; reflexivity.
Qed.

Lemma closes_closed (ds : list Z) : closes (map Closed ds) = ds.
Proof. induction ds as [|d ds IH]; cbn; [|rewrite IH]; reflexivity. Qed.

(** The loop's trace is its sends and sleeps followed by the closes of
    the iterations that got a response, newest first; a panic leaves the
    response it broke on out. *)
Lemma loop_shape (fuel : nat) (req : Request) :
  forall (try : Z) (lb : slice) (ds : list Z) (o : Outcome) (tr : list Event),
    loop' fuel req try lb ds = Some (o, tr) ->
    exists ev n,
      tr = ev ++ map Closed (rev (counters try n) ++ ds) /\
      closes ev = [] /\
      List.length (sends tr) =
        match o with Panic => S n | Return _ _ => n end /\
      (List.length (sleeps tr) <= n)%nat /\
      (List.length (sends tr) <= S (List.length (sleeps tr)))%nat /\
      (List.length (sends tr) <= Z.to_nat (MaxTries - try))%nat.
Proof.
  induction fuel as [|fuel IH]; intros try lb ds o tr Hrun;
    destruct (Z_lt_le_dec try MaxTries) as [Hlt|Hge];
    try (rewrite loop_done in Hrun by assumption; injection Hrun as <- <-;
         exists [], 0%nat; cbn; rewrite sends_closed, sleeps_closed; cbn;
         repeat split; lia).
  - cbn in Hrun. destruct (Z.ltb_spec try MaxTries); [discriminate|lia].
  - rewrite loop_iter in Hrun by assumption.
    destruct (verdict Unmarshal (Do try req)) as [o' d|b] eqn:Hv.
    + injection Hrun as <- <-.
      assert (Hd : d = match o' with Panic => false | Return _ _ => true end).
      { unfold verdict in Hv.
        destruct (Do try req) as [[resp|] [err|]]; try (injection Hv as <- <-; reflexivity).
        destruct (Body resp) as [b [rerr|]]; try (injection Hv as <- <-; reflexivity).
        destruct (StatusCode resp <? 400); try (injection Hv as <- <-; reflexivity).
        destruct (Unmarshal (content b)) as [e [derr|]];
          try (injection Hv as <- <-; reflexivity).
        destruct (negb (Type_ e =? "Throttling")%string && (StatusCode resp <=? 500));
          [injection Hv as <- <-; reflexivity|discriminate]. }
      subst d. destruct o' as [body err|].
      * exists [Sent try req], 1%nat. cbn. rewrite sends_closed, sleeps_closed. cbn.
        repeat split; lia.
      * exists [Sent try req], 0%nat. cbn. rewrite sends_closed, sleeps_closed. cbn.
        repeat split; lia.
    + destruct (loop' fuel req (try + 1) b (try :: ds)) as [[o' tr']|] eqn:Hrest;
        [|discriminate].
      injection Hrun as <- <-.
      destruct (IH _ _ _ _ _ Hrest) as (ev & n & -> & Hev & Hs & Hsl & Hss & Hb).
      exists (Sent try req :: Slept (sleepArg conv_unrep try) :: ev), (S n).
      cbn [emit fst snd counters rev app closes sends sleeps List.length] in *.
      rewrite <- !app_assoc. cbn [app].
      repeat split; try assumption; try lia.
      destruct o'; lia.
Qed.

(** After [n] retried iterations the loop is where a fresh loop would be
    at counter [try + n], behind [n] sends and sleeps. *)
Lemma loop_skip (n : nat) (req : Request) (bodies : Z -> slice) :
  forall (fuel : nat) (try : Z) (lb : slice) (ds : list Z),
    (forall t, try <= t < try + Z.of_nat n ->
               retried Unmarshal (Do t req) (bodies t)) ->
    try + Z.of_nat n <= MaxTries ->
    (Z.to_nat (MaxTries - try) <= fuel)%nat ->
    exists fuel' lb' ev,
      (Z.to_nat (MaxTries - (try + Z.of_nat n)) <= fuel')%nat /\
      lb' = match n with O => lb | S _ => bodies (try + Z.of_nat n - 1) end /\
      List.length (sends ev) = n /\
      sleeps ev = map (sleepArg conv_unrep) (counters try n) /\
      loop' fuel req try lb ds =
      option_map (fun r => (fst r, ev ++ snd r))
                 (loop' fuel' req (try + Z.of_nat n) lb'
                        (rev (counters try n) ++ ds)).
Proof.
  induction n as [|n IH]; intros fuel try lb ds Hall Hle Hfuel.
  - exists fuel, lb, []. replace (try + Z.of_nat 0) with try by lia.
    repeat split; try assumption.
    cbn. destruct (loop' fuel req try lb ds) as [[o tr]|]; reflexivity.
  - destruct fuel as [|fuel]; [lia|].
    rewrite loop_iter by lia.
    rewrite (verdict_again _ _ (Hall try ltac:(lia))).
    destruct (IH fuel (try + 1) (bodies try) (try :: ds))
      as (fuel' & lb' & ev & Hf & Hlb & Hs & Hsl & Hrun).
    { intros t Ht. apply Hall. lia. }
    { lia. }
    { lia. }
    exists fuel', (bodies (try + Z.of_nat (S n) - 1)),
           (Sent try req :: Slept (sleepArg conv_unrep try) :: ev).
    replace (try + Z.of_nat (S n)) with (try + 1 + Z.of_nat n) by lia.
    split; [exact Hf|]. split; [reflexivity|].
    split; [cbn; rewrite Hs; reflexivity|].
    split; [cbn; rewrite Hsl; reflexivity|].
    assert (Hlb' : lb' = bodies (try + 1 + Z.of_nat n - 1)).
    { rewrite Hlb. destruct n; [f_equal; lia|reflexivity]. }
    clear Hlb. subst lb'. rewrite Hrun. clear Hrun.
    cbn [counters rev]. rewrite <- app_assoc. cbn [app].
    destruct (loop' fuel' req (try + 1 + Z.of_nat n) _ _) as [[o tr]|]; reflexivity.
Qed.

Lemma total_backoff (n : nat) : forall (k : Z),
  0 <= k -> k + Z.of_nat n <= 37 ->
  total (map (sleepArg conv_unrep) (counters k n)) =
  100 * (2 ^ (k + Z.of_nat n) - 2 ^ k) * Millisecond.
Proof.
  induction n as [|n IH]; intros k Hk Hn.
  - unfold total. cbn [counters map fold_right].
    change (Z.of_nat 0) with 0. rewrite Z.add_0_r. lia.
  - specialize (IH (k + 1) ltac:(lia) ltac:(lia)).
    unfold total in *. cbn [counters map fold_right].
    rewrite IH, sleepArg_exact by lia.
    replace (k + 1 + Z.of_nat n) with (k + Z.of_nat (S n)) by lia.
    rewrite (Z.pow_add_r 2 k 1) by lia. change (2 ^ 1) with 2. lia.
Qed.

(** The counter [t + 1] is reached exactly through a retried iteration
    [t] with room left under [MaxTries]. *)
Lemma loop_next (fuel : nat) (req : Request) :
  forall (try : Z) (lb : slice) (ds : list Z) (r : Run) (t : Z),
    loop' fuel req try lb ds = Some r ->
    try <= t ->
    (In (Sent (t + 1) req) (snd r) <->
     In (Sent t req) (snd r) /\ t + 1 < MaxTries /\
     exists b, retried Unmarshal (Do t req) b).
Proof.
  induction fuel as [|fuel IH]; intros try lb ds r t Hrun Ht;
    destruct (Z_lt_le_dec try MaxTries) as [Hlt|Hge];
    try (rewrite loop_done in Hrun by assumption; injection Hrun as <-;
         split; [intros Hin|intros [Hin _]];
         apply in_closed in Hin; destruct Hin as [? [=]]).
  - cbn in Hrun. destruct (Z.ltb_spec try MaxTries); [discriminate|lia].
  - rewrite loop_iter in Hrun by assumption.
    destruct (verdict Unmarshal (Do try req)) as [o d|b] eqn:Hv.
    + injection Hrun as <-. split.
      * intros [[= Heq]|Hin]; [lia|].
        apply in_closed in Hin. destruct Hin as [? [=]].
      * intros ([[= <-]|Hin] & _ & b & Hb).
        -- rewrite (verdict_again _ _ Hb) in Hv. discriminate.
        -- apply in_closed in Hin. destruct Hin as [? [=]].
    + destruct (loop' fuel req (try + 1) b (try :: ds)) as [r'|] eqn:Hrest;
        [|discriminate].
      injection Hrun as <-. cbn [emit snd].
      destruct (Z.eq_dec t try) as [->|Hne].
      * split.
        -- intros [[= Heq]|[[=]|Hin]]; [lia|].
           pose proof (loop_events _ _ _ _ _ _ Hrest _ Hin) as [Hr _].
           split; [left; reflexivity|]. split; [lia|].
           exists b. apply verdict_again_inv. exact Hv.
        -- intros (_ & Hroom & _). right. right.
           destruct fuel as [|fuel'].
           ++ cbn in Hrest. destruct (Z.ltb_spec (try + 1) MaxTries); [discriminate|lia].
           ++ rewrite loop_iter in Hrest by assumption.
              destruct (match verdict Unmarshal (Do (try + 1) req) with
                        | Stop o d => _ | Again body => _ end) as [r''|];
                [|discriminate].
              injection Hrest as <-. left. reflexivity.
      * pose proof (IH _ _ _ _ t Hrest ltac:(lia)) as Hiff. split.
        -- intros [[= Heq]|[[=]|Hin]]; [lia|].
           apply Hiff in Hin. destruct Hin as (Hin & Hmore).
           split; [right; right; exact Hin|exact Hmore].
        -- intros ([[= Heq]|[[=]|Hin]] & Hmore); [congruence|].
           right. right. apply Hiff. split; assumption.
Qed.

(** X1.  A call never sends more than [MaxTries - 1] times, and it
    sleeps after every send but possibly the last: never before the first
    send, never twice in a row. *)
Theorem sends_bounded (req : Request) :
  exists o tr,
    send req = Some (o, tr) /\
    (List.length (sends tr) <= Z.to_nat (MaxTries - 1))%nat /\
    (List.length (sleeps tr) <= List.length (sends tr))%nat /\
    (List.length (sends tr) <= S (List.length (sleeps tr)))%nat.
Proof.
  unfold SendAWSRequest.
  destruct (loop_total (Z.to_nat (MaxTries - 1)) (Sign req) 1 nil_slice [])
    as [[o tr] Hrun]; [lia|].
  rewrite Hrun. exists o, (Signed req :: tr). split; [reflexivity|].
  destruct (loop_shape _ _ _ _ _ _ _ Hrun) as (ev & n & _ & _ & Hs & Hsl & Hss & Hb).
  cbn [sends sleeps]. repeat split; try assumption.
  destruct o; lia.
Qed.

(** X2.  The response bodies are closed only when the call ends: the
    trace is the signing, then sends and sleeps without any close, then
    the closes of the iterations 1..n, newest first.  A returning call
    closes one body per send; a panicking call closes all but the one it
    broke on. *)
Theorem bodies_closed_only_at_return (req : Request) :
  exists o ev n,
    send req = Some (o, Signed req :: ev ++ map Closed (rev (counters 1 n))) /\
    closes ev = [] /\
    List.length (sends ev) = match o with Panic => S n | Return _ _ => n end.
Proof.
  unfold SendAWSRequest.
  destruct (loop_total (Z.to_nat (MaxTries - 1)) (Sign req) 1 nil_slice [])
    as [[o tr] Hrun]; [lia|].
  rewrite Hrun.
  destruct (loop_shape _ _ _ _ _ _ _ Hrun) as (ev & n & -> & Hev & Hs & _).
  exists o, ev, n. rewrite app_nil_r in *. split; [reflexivity|].
  split; [exact Hev|].
  rewrite <- Hs, sends_app, sends_closed, app_nil_r. reflexivity.
Qed.

(** X3.  Retrying works: when the first [n] responses are retried and
    the next one, still within [MaxTries], is below 400, the call returns
    that response's body with a nil error after [n + 1] sends and the
    [n] backoff sleeps of the counters 1..n. *)
Theorem success_after_retries
        (req : Request) (n : nat) (bodies : Z -> slice)
        (resp : Response) (body : slice) :
  (forall t, 1 <= t < 1 + Z.of_nat n ->
             retried Unmarshal (Do t (Sign req)) (bodies t)) ->
  1 + Z.of_nat n < MaxTries ->
  Do (1 + Z.of_nat n) (Sign req) = (Some resp, None) ->
  Body resp = (body, None) ->
  StatusCode resp < 400 ->
  exists tr,
    send req = Some (Return body None, tr) /\
    List.length (sends tr) = S n /\
    sleeps tr = map (sleepArg conv_unrep) (counters 1 n).
Proof.
  intros Hall Hroom Hdo Hbody Hst. unfold SendAWSRequest.
  destruct (loop_skip n (Sign req) bodies (Z.to_nat (MaxTries - 1)) 1 nil_slice [])
    as (fuel' & lb' & ev & Hf & _ & Hs & Hsl & Hrun); [exact Hall|lia|lia|].
  rewrite Hrun. destruct fuel' as [|fuel']; [lia|].
  rewrite loop_iter by assumption.
  unfold verdict. rewrite Hdo, Hbody.
  destruct (Z.ltb_spec (StatusCode resp) 400) as [_|Hge]; [|lia].
  cbn [option_map emit leave fst snd].
  eexists. split; [reflexivity|].
  cbn [sends sleeps snd]. rewrite sends_app, sleeps_app. cbn [sends sleeps].
  rewrite sends_closed, sleeps_closed, app_nil_r, Hsl, length_app, Hs.
  split; [cbn; lia|reflexivity].
Qed.

(** X4.  On exhaustion the body handed back beside the exhaustion error
    is the body of the last response, that of iteration
    [MaxTries - 1]. *)
Theorem exhaustion_returns_last_body (req : Request) (bodies : Z -> slice) :
  2 <= MaxTries ->
  (forall t, 1 <= t < MaxTries ->
             retried Unmarshal (Do t (Sign req)) (bodies t)) ->
  exists tr,
    send req = Some (Return (bodies (MaxTries - 1)) exhausted, tr).
Proof.
  intros Hmax Hall. unfold SendAWSRequest.
  destruct (loop_skip (Z.to_nat (MaxTries - 1)) (Sign req) bodies
                      (Z.to_nat (MaxTries - 1)) 1 nil_slice [])
    as (fuel' & lb' & ev & _ & Hlb & _ & _ & Hrun).
  { intros t Ht. apply Hall. lia. }
  { lia. }
  { lia. }
  rewrite Hrun. rewrite loop_done by lia.
  destruct (Z.to_nat (MaxTries - 1)) as [|m] eqn:Hm; [lia|].
  subst lb'. replace (1 + Z.of_nat (S m) - 1) with (MaxTries - 1) by lia.
  eexists. reflexivity.
Qed.

(** X5.  With [MaxTries] between 1 and 37, a call whose every attempt is
    retried asks [time.Sleep] for 100 ms times [2^MaxTries - 2] in all
    before it gives up: 3 seconds for the default of 5. *)
Theorem exhaustion_total_backoff (req : Request) :
  1 <= MaxTries <= 37 ->
  (forall t, 1 <= t < MaxTries ->
             exists b, retried Unmarshal (Do t (Sign req)) b) ->
  exists body tr,
    send req = Some (Return body exhausted, tr) /\
    total (sleeps tr) = 100 * (2 ^ MaxTries - 2) * Millisecond.
Proof.
  intros Hmax Hall. unfold SendAWSRequest.
  destruct (loop_exhaust (Z.to_nat (MaxTries - 1)) (Sign req) 1 nil_slice [])
    as (body & tr & Hrun & _ & Hsl); [lia|exact Hall|].
  rewrite Hrun. exists body, (Signed req :: tr). split; [reflexivity|].
  cbn [sleeps]. rewrite Hsl, total_backoff by lia.
  replace (1 + Z.of_nat (Z.to_nat (MaxTries - 1))) with MaxTries by lia.
  reflexivity.
Qed.

(** X6.  The retry rule as the code has it: attempt [t + 1] is made
    exactly when attempt [t] was made, [t + 1] is below [MaxTries], and
    the response to attempt [t] came without error, was read and decoded,
    had status 400 or more, and had the kind "Throttling" or a status
    above 500. *)
Theorem next_attempt_iff_retried (req : Request) (r : Run) (t : Z) :
  send req = Some r ->
  1 <= t ->
  (In (Sent (t + 1) (Sign req)) (snd r) <->
   In (Sent t (Sign req)) (snd r) /\ t + 1 < MaxTries /\
   exists b, retried Unmarshal (Do t (Sign req)) b).
Proof.
  intros Hrun Ht. unfold SendAWSRequest in Hrun.
  destruct (loop' (Z.to_nat (MaxTries - 1)) (Sign req) 1 nil_slice [])
    as [r'|] eqn:Hloop; [|discriminate].
  injection Hrun as <-. cbn [emit snd].
  pose proof (loop_next _ _ _ _ _ _ t Hloop Ht) as Hiff. split.
  - intros [[=]|Hin]. apply Hiff in Hin. destruct Hin as (Hin & Hmore).
    split; [right; exact Hin|exact Hmore].
  - intros ([[=]|Hin] & Hmore). right. apply Hiff. split; assumption.
Qed.

(** X7.  A response whose body cannot be read to the end ends the call,
    whatever its status: the bytes read so far and the read error are
    returned, and no later iteration sends. *)
Theorem read_error_is_fatal
        (req : Request) (resp : Response) (body : slice) (rerr : error) :
  Body resp = (body, Some rerr) ->
  (1 < MaxTries ->
   Do 1 (Sign req) = (Some resp, None) ->
   send req = Some (Return body (Some rerr),
                    [Signed req; Sent 1 (Sign req); Closed 1])) /\
  (forall r t,
      send req = Some r ->
      In (Sent t (Sign req)) (snd r) ->
      Do t (Sign req) = (Some resp, None) ->
      fst r = Return body (Some rerr) /\
      forall t' q, In (Sent t' q) (snd r) -> t' <= t).
Proof.
  intros Hbody.
  assert (Hv : forall t, Do t (Sign req) = (Some resp, None) ->
                         verdict Unmarshal (Do t (Sign req))
                         = Stop (Return body (Some rerr)) true).
  { intros t Hdo. unfold verdict. rewrite Hdo, Hbody. reflexivity. }
  split.
  - intros Hmax Hdo. unfold SendAWSRequest.
    replace (Z.to_nat (MaxTries - 1)) with (S (Z.to_nat (MaxTries - 2))) by lia.
    rewrite loop_iter by assumption. rewrite (Hv 1 Hdo). reflexivity.
  - intros r t Hrun Hin Hdo. unfold SendAWSRequest in Hrun.
    destruct (loop' (Z.to_nat (MaxTries - 1)) (Sign req) 1 nil_slice [])
      as [r'|] eqn:Hloop; [|discriminate].
    injection Hrun as <-. cbn [emit fst snd] in *.
    destruct Hin as [[=]|Hin].
    destruct (loop_stops _ _ _ _ _ _ _ _ _ Hloop Hin (Hv t Hdo)) as [Ho Hlast].
    split; [exact Ho|].
    intros t' q [[=]|Hc]. eauto.
Qed.

Lemma colon_split (s1 : string) : forall (s2 m1 m2 : string),
  has_colon s1 = false -> has_colon s2 = false ->
  (s1 ++ String ":" m1 = s2 ++ String ":" m2)%string ->
  s1 = s2 /\ m1 = m2.
Proof.
  induction s1 as [|c s1 IH]; intros [|c' s2] m1 m2 H1 H2 Heq; cbn in *.
  - injection Heq as ->. auto.
  - injection Heq as <- _. cbn in H2. discriminate.
  - injection Heq as -> _. cbn in H1. discriminate.
  - injection Heq as <- Heq.
    apply orb_false_iff in H1, H2. destruct H1 as [_ H1]. destruct H2 as [_ H2].
    destruct (IH _ _ _ H1 H2 Heq) as [-> ->]. auto.
Qed.

(** X8.  [Error] tells errors apart as long as their kinds hold no
    colon: two such errors with the same message text are the same
    error. *)
Theorem Error_injective (a b : AWSError) :
  has_colon (Type_ a) = false ->
  has_colon (Type_ b) = false ->
  Error a = Error b ->
  a = b.
Proof.
  intros Ha Hb Heq. unfold Error in Heq.
  destruct a as [ta ma], b as [tb mb]. cbn in *.
  destruct (colon_split _ _ _ _ Ha Hb Heq) as [-> Hm].
  injection Hm as ->. reflexivity.
Qed.

(** ** The earlier dispatcher *)

Lemma loops_agree (fuel : nat) (req : Request) :
  forall (try : Z) (lb : slice) (ds ds' : list Z),
    (Z.to_nat (MaxTries - try) <= fuel)%nat ->
    (forall t resp err,
        try <= t < MaxTries -> Do t req = (resp, err) ->
        (resp = None -> err = None) /\
        (forall r, resp = Some r -> snd (Body r) = None)) ->
    exists o o' tr tr',
      loop' fuel req try lb ds = Some (o, tr) /\
      loop0 fuel req try ds' = Some (o', tr') /\
      sends tr = sends tr' /\ sleeps tr = sleeps tr' /\ same_end o o'.
Proof.
  induction fuel as [|fuel IH]; intros try lb ds ds' Hfuel Hgood.
  - cbn. destruct (Z.ltb_spec try MaxTries); [lia|].
    eexists _, _, _, _. split; [reflexivity|]. split; [reflexivity|].
    unfold leave, Earlier.leave. rewrite !sends_closed, !sleeps_closed.
    repeat split.
  - cbn [loop Earlier.loop].
    destruct (Z.ltb_spec try MaxTries) as [Hlt|Hge].
    + destruct (Do try req) as [resp err] eqn:Hdo.
      destruct (Hgood try resp err ltac:(lia) Hdo) as [Hnil Hread].
      destruct resp as [resp|].
      * specialize (Hread resp eq_refl).
        destruct err as [err|].
        { eexists _, _, _, _. split; [reflexivity|]. split; [reflexivity|].
          cbn. rewrite !sends_closed, !sleeps_closed. repeat split. }
        destruct (Body resp) as [body rerr]. cbn in Hread. subst rerr.
        cbn [fst].
        destruct (StatusCode resp <? 400).
        { eexists _, _, _, _. split; [reflexivity|]. split; [reflexivity|].
          cbn. rewrite !sends_closed, !sleeps_closed. repeat split. }
        destruct (Unmarshal (content body)) as [e [derr|]].
        { eexists _, _, _, _. split; [reflexivity|]. split; [reflexivity|].
          cbn. rewrite !sends_closed, !sleeps_closed. repeat split. }
        destruct (negb (Type_ e =? "Throttling")%string && (StatusCode resp <=? 500)).
        { eexists _, _, _, _. split; [reflexivity|]. split; [reflexivity|].
          cbn. rewrite !sends_closed, !sleeps_closed. repeat split. }
        destruct (IH (try + 1) body (try :: ds) (try :: ds'))
          as (o & o' & tr & tr' & Hrun & Hrun' & Hs & Hsl & Hend); [lia| |].
        { intros t resp' err' Ht. apply Hgood. lia. }
        rewrite Hrun, Hrun'. eexists _, _, _, _.
        split; [reflexivity|]. split; [reflexivity|].
        cbn. rewrite Hs, Hsl. repeat split. exact Hend.
      * rewrite (Hnil eq_refl).
        eexists _, _, _, _. split; [reflexivity|]. split; [reflexivity|].
        cbn. rewrite !sends_closed, !sleeps_closed. repeat split.
    + eexists _, _, _, _. split; [reflexivity|]. split; [reflexivity|].
      unfold leave, Earlier.leave. rewrite !sends_closed, !sleeps_closed.
      repeat split.
Qed.

(** X9.  As long as the transport never gives an error without a
    response and every body is read without error, the dispatcher and its
    earlier version send the same requests, sleep the same times and end
    alike: both panic, or both return the same error (or both none). *)
Theorem dispatchers_agree (req : Request) :
  (forall t resp err,
      1 <= t < MaxTries -> Do t (Sign req) = (resp, err) ->
      (resp = None -> err = None) /\
      (forall r, resp = Some r -> snd (Body r) = None)) ->
  exists o o' tr tr',
    send req = Some (o, tr) /\ send0 req = Some (o', tr') /\
    sends tr = sends tr' /\ sleeps tr = sleeps tr' /\ same_end o o'.
Proof.
  intros Hgood. unfold SendAWSRequest, Earlier.SendAWSRequest.
  destruct (loops_agree (Z.to_nat (MaxTries - 1)) (Sign req) 1 nil_slice [] [])
    as (o & o' & tr & tr' & Hrun & Hrun' & Hs & Hsl & Hend); [lia|exact Hgood|].
  rewrite Hrun, Hrun'. exists o, o', (Signed req :: tr), (Signed req :: tr').
  repeat split; assumption.
Qed.

(** X10.  Where they part: an error of the transport without a response.
    The earlier version looks at the error first and returns it beside the
    nil response after the one send; the current one panics. *)
Theorem transport_error_then_and_now (req : Request) (err : error) :
  1 < MaxTries ->
  Do 1 (Sign req) = (None, Some err) ->
  send0 req = Some (Earlier.Return Earlier.nilResponse (Some err),
                    [Signed req; Sent 1 (Sign req)]) /\
  send req = Some (Panic, [Signed req; Sent 1 (Sign req)]).
Proof.
  intros Hmax Hdo. split.
  - unfold Earlier.SendAWSRequest.
    replace (Z.to_nat (MaxTries - 1)) with (S (Z.to_nat (MaxTries - 2))) by lia.
    cbn [Earlier.loop]. destruct (Z.ltb_spec 1 MaxTries); [|lia].
    rewrite Hdo. reflexivity.
  - exact (nil_response_panics req (Some err) Hmax Hdo).
Qed.

(** ** The earlier stream operations *)

Lemma getEndpoint_closed (Rs : Earlier.RegionMap) (R : string) (s : Earlier.Stream) :
  Earlier.getEndpoint Rs R s =
  let region := if (Earlier.StreamRegion s =? EmptyString)%string
                then R else Earlier.StreamRegion s in
  let ep := Earlier.Kinesis (Earlier.RegionEndpoints (Earlier.index Rs region)) in
  ({| Earlier.Name := Earlier.Name s; Earlier.StreamRegion := region |},
   (ep, if (ep =? EmptyString)%string
        then Some (ServiceError Earlier.noEndpoint) else None)).
Proof.
  unfold Earlier.getEndpoint. cbv zeta. destruct s as [name region].
  cbn [Earlier.StreamRegion Earlier.Name].
  destruct (region =? EmptyString)%string; cbn [Earlier.StreamRegion];
    match goal with
    | |- context [(?e =? EmptyString)%string] =>
      destruct (e =? EmptyString)%string
    end; reflexivity.
Qed.

(** X11.  A stream takes the default region at its first use and keeps
    it: once [getEndpoint] has run under a non-empty [gaws.Region], a
    later call gives the same stream, endpoint and error whatever
    [gaws.Region] has become. *)
Theorem getEndpoint_latches_region (R R' : string) (s : Earlier.Stream) :
  R <> EmptyString ->
  Earlier.getEndpoint gaws_Regions R' (fst (Earlier.getEndpoint gaws_Regions R s))
  = Earlier.getEndpoint gaws_Regions R s.
Proof.
  intros HR. apply String.eqb_neq in HR.
  rewrite !getEndpoint_closed. cbn [fst Earlier.StreamRegion Earlier.Name].
  destruct (Earlier.StreamRegion s =? EmptyString)%string eqn:Hreg;
    rewrite ?HR, ?Hreg; reflexivity.
Qed.

(** X12.  With the table of regions the package ships, [getEndpoint]
    succeeds for the region us-east-1 alone, given by the stream or, for a
    stream without region, by [gaws.Region]; any other region, absent from
    the table, gives the empty endpoint and the error
    GawsNoEndpointForRegion. *)
Theorem getEndpoint_of_shipped_regions (R : string) (s : Earlier.Stream) :
  let region := if (Earlier.StreamRegion s =? EmptyString)%string
                then R else Earlier.StreamRegion s in
  let s' := {| Earlier.Name := Earlier.Name s; Earlier.StreamRegion := region |} in
  Earlier.getEndpoint Earlier.Regions R s =
  if (region =? "us-east-1")%string
  then (s', ("https://kinesis.us-east-1.amazonaws.com"%string, None))
  else (s', (EmptyString, Some (ServiceError Earlier.noEndpoint))).
Proof.
  cbv zeta. rewrite getEndpoint_closed. cbv zeta.
  set (region := if (Earlier.StreamRegion s =? EmptyString)%string
                 then R else Earlier.StreamRegion s).
  unfold Earlier.Regions. cbn [Earlier.index].
  change (Earlier.RegionName Earlier.USEast1) with "us-east-1"%string.
  rewrite (String.eqb_sym region).
  destruct ("us-east-1" =? region)%string; reflexivity.
Qed.


(** X14.  In a region without a Kinesis endpoint nothing is signed or
    sent: [CreateStream] and the earlier [PutRecord] return the error
    GawsNoEndpointForRegion at once.  The region looked up is the
    stream's, or [gaws.Region] for a stream without one, and the stream
    handed back carries it: for [CreateStream] that is [gaws.Region]
    beside an empty name. *)
Theorem no_endpoint_nothing_sent :
  (Earlier.Kinesis (Earlier.RegionEndpoints
                      (Earlier.index gaws_Regions gaws_Region)) = EmptyString ->
   forall name shardCount,
     CreateStream0 name shardCount =
     Some (Returned ({| Earlier.Name := EmptyString;
                        Earlier.StreamRegion := gaws_Region |},
                     Some (ServiceError Earlier.noEndpoint)), [])) /\
  (forall s partitionKey data,
      let region := if (Earlier.StreamRegion s =? EmptyString)%string
                    then gaws_Region else Earlier.StreamRegion s in
      Earlier.Kinesis (Earlier.RegionEndpoints (Earlier.index gaws_Regions region))
      = EmptyString ->
      PutRecord0 s partitionKey data =
      Some (Returned ({| Earlier.Name := Earlier.Name s;
                         Earlier.StreamRegion := region |},
                      Some (ServiceError Earlier.noEndpoint)), [])).
Proof.
  split.
  - intros Hno name shardCount.
    unfold Earlier.CreateStream, Earlier.getEndpoint.
    cbn [Earlier.StreamRegion Earlier.Name String.eqb].
    rewrite Hno. reflexivity.
  - intros s partitionKey data region Hno.
    unfold Earlier.PutRecord. rewrite getEndpoint_closed. cbv zeta.
    fold region. rewrite Hno. reflexivity.
Qed.

(** ** The stream operations *)

Lemma loop_success_sent (fuel : nat) (req : Request) :
  forall (try : Z) (lb : slice) (ds : list Z) (body : slice) (tr : list Event),
    loop' fuel req try lb ds = Some (Return body None, tr) ->
    exists t resp, In (Sent t req) tr /\ try <= t < MaxTries /\
                   Do t req = (Some resp, None) /\
                   Body resp = (body, None) /\ StatusCode resp < 400.
Proof.
  induction fuel as [|fuel IH]; intros try lb ds body tr Hrun;
    destruct (Z_lt_le_dec try MaxTries) as [Hlt|Hge];
    try (rewrite loop_done in Hrun by assumption; discriminate).
  - cbn in Hrun. destruct (Z.ltb_spec try MaxTries); [discriminate|lia].
  - rewrite loop_iter in Hrun by assumption.
    destruct (verdict Unmarshal (Do try req)) as [o d|b] eqn:Hhere.
    + injection Hrun as -> <-.
      apply verdict_success_inv in Hhere. destruct Hhere as (resp & Hdo & Hb & Hst).
      exists try, resp. split; [left; reflexivity|].
      repeat split; auto; lia.
    + destruct (loop' fuel req (try + 1) b (try :: ds)) as [[o' tr']|] eqn:Hrest;
        [|discriminate].
      injection Hrun as -> <-.
      destruct (IH _ _ _ _ _ Hrest) as (t & resp & Hin & Ht & Hmore).
      exists t, resp. split; [right; right; exact Hin|].
      split; [lia|exact Hmore].
Qed.

(** X15.  An endpoint that is not a URL makes [PutRecord] and [Delete]
    panic before anything is signed or sent: they set headers on the nil
    request [http.NewRequest] returned, without looking at its error. *)
Theorem unchecked_operations_panic_on_bad_endpoint
        (s : Kinesis.Stream) (service : Kinesis.KinesisService) (uerr : error) :
  Kinesis.Service s = Some service ->
  URLError (Kinesis.Endpoint service) = Some uerr ->
  (forall partitionKey data, PutRecord s partitionKey data = Some (Panicked, [])) /\
  Delete s = Some (Panicked, []).
Proof.
  intros Hsvc Hurl. split.
  - intros partitionKey data. unfold Kinesis.PutRecord, NewRequest.
    rewrite Hsvc. destruct (Marshal _) as [bodyAsJson merr].
    rewrite Hurl. reflexivity.
  - unfold Kinesis.Delete, NewRequest. rewrite Hsvc, Hurl. reflexivity.
Qed.

(** X16.  The same endpoint makes [Describe], [GetRecords] and
    [GetShardIterator] return the URL error with a zero result, nothing
    signed or sent; [GetRecords] gives the error of [json.Marshal]
    precedence when there is one. *)
Theorem checked_operations_return_bad_endpoint_error
        (s : Kinesis.Stream) (service : Kinesis.KinesisService) (uerr : error) :
  Kinesis.Service s = Some service ->
  URLError (Kinesis.Endpoint service) = Some uerr ->
  Describe s = Some (Returned (Kinesis.zeroStreamDescription, Some uerr), []) /\
  (forall request,
      GetRecords s request =
      Some (Returned (Kinesis.zeroGetRecordsResponse,
                      Some match snd (Marshal (Kinesis.getRecordsRequest request)) with
                           | Some merr => merr
                           | None => uerr
                           end), [])) /\
  (forall shard shardIteratorType startingSequenceNumber,
      Kinesis.stream shard = Some s ->
      GetShardIterator shard shardIteratorType startingSequenceNumber =
      Some (Returned (EmptyString, Some uerr), [])).
Proof.
  intros Hsvc Hurl. repeat split.
  - unfold Kinesis.Describe, NewRequest. rewrite Hsvc.
    destruct (Marshal _) as [bodyAsJson merr]. rewrite Hurl. reflexivity.
  - intros request. unfold Kinesis.GetRecords, NewRequest. rewrite Hsvc.
    destruct (Marshal _) as [bodyAsJson [merr|]]; cbn [snd]; [reflexivity|].
    rewrite Hurl. reflexivity.
  - intros shard ty seq Hst. unfold Kinesis.GetShardIterator, NewRequest.
    rewrite Hst, Hsvc. destruct (Marshal _) as [bodyAsJson merr].
    rewrite Hurl. reflexivity.
Qed.

(** X17.  [Describe] and [GetShardIterator] never hand back a result
    beside an error: whenever the error is not nil, the description is
    the zero [StreamDescription] and the iterator is the empty string. *)
Theorem error_means_zero_result :
  (forall s d err tr,
      Describe s = Some (Returned (d, Some err), tr) ->
      d = Kinesis.zeroStreamDescription) /\
  (forall shard ty seq it err tr,
      GetShardIterator shard ty seq = Some (Returned (it, Some err), tr) ->
      it = EmptyString).
Proof.
  split.
  - intros s d err tr. unfold Kinesis.Describe.
    destruct (Kinesis.Service s) as [service|]; [|discriminate].
    destruct (Marshal _) as [bodyAsJson merr].
    destruct (NewRequest URLError "POST" _ _) as [[req|] [uerr|]];
      try discriminate; try (intros [= <- _ _]; reflexivity).
    destruct (SendAWSRequest _ _ _ _ _ _) as [[[resp [e|]|] tr']|];
      try discriminate; try (intros [= <- _ _]; reflexivity).
    destruct (Unmarshal_streamDescriptionResult _) as [result [derr|]];
      [intros [= <- _ _]; reflexivity|discriminate].
  - intros shard ty seq it err tr. unfold Kinesis.GetShardIterator.
    destruct (Kinesis.stream shard) as [st|]; [|discriminate].
    destruct (Kinesis.Service st) as [service|]; [|discriminate].
    destruct (Marshal _) as [bodyAsJson merr].
    destruct (NewRequest URLError "POST" _ _) as [[req|] [uerr|]];
      try discriminate; try (intros [= <- _ _]; reflexivity).
    destruct (SendAWSRequest _ _ _ _ _ _) as [[[resp [e|]|] tr']|];
      try discriminate; try (intros [= <- _ _]; reflexivity).
    destruct (Unmarshal_getShardIteratorResponse _) as [result [derr|]];
      [intros [= <- _ _]; reflexivity|discriminate].
Qed.

(** X18.  [GetRecords] is not so careful: when the response is fine but
    does not decode, it returns the decoder's error together with
    whatever the decoder had put into the result by then. *)
Theorem GetRecords_keeps_partial_result
        (s : Kinesis.Stream) (service : Kinesis.KinesisService)
        (request : Kinesis.GetRecordsRequest) (bodyAsJson : slice)
        (resp : Response) (body : slice)
        (partial : Kinesis.GetRecordsResponse) (derr : error) :
  let req := Kinesis.targeted CanonicalMIMEHeaderKey "Kinesis_20131202.GetRecords"
               {| Method := "POST"; URL := Kinesis.Endpoint service;
                  Header := []; ReqBody := content bodyAsJson |} in
  Kinesis.Service s = Some service ->
  Marshal (Kinesis.getRecordsRequest request) = (bodyAsJson, None) ->
  URLError (Kinesis.Endpoint service) = None ->
  1 < MaxTries ->
  Do 1 (Sign req) = (Some resp, None) ->
  Body resp = (body, None) ->
  StatusCode resp < 400 ->
  Unmarshal_GetRecordsResponse (content body) = (partial, Some derr) ->
  GetRecords s request =
  Some (Returned (partial, Some derr), [Signed req; Sent 1 (Sign req); Closed 1]).
Proof.
  intros req Hsvc Hm Hurl Hmax Hdo Hbody Hst Hdec.
  unfold Kinesis.GetRecords, NewRequest. rewrite Hsvc, Hm, Hurl.
  fold req. unfold SendAWSRequest.
  replace (Z.to_nat (MaxTries - 1)) with (S (Z.to_nat (MaxTries - 2))) by lia.
  rewrite loop_iter by assumption.
  unfold verdict. rewrite Hdo, Hbody.
  destruct (Z.ltb_spec (StatusCode resp) 400); [|lia].
  cbn [option_map emit leave fst snd]. rewrite Hdec. reflexivity.
Qed.

(** X19.  [Delete] and [PutRecord] report a nil error only after a
    response below 400: if either returns nil, some attempt of the call,
    within [MaxTries], was answered with such a status. *)
Theorem nil_error_only_after_success (s : Kinesis.Stream) :
  (forall tr,
      Delete s = Some (Returned None, tr) ->
      exists req t resp, In (Sent t req) tr /\ 1 <= t < MaxTries /\
                         Do t req = (Some resp, None) /\ StatusCode resp < 400) /\
  (forall partitionKey data tr,
      PutRecord s partitionKey data = Some (Returned None, tr) ->
      exists req t resp, In (Sent t req) tr /\ 1 <= t < MaxTries /\
                         Do t req = (Some resp, None) /\ StatusCode resp < 400).
Proof.
  assert (Hsend : forall req body tr,
             send req = Some (Return body None, tr) ->
             exists t resp, In (Sent t (Sign req)) tr /\ 1 <= t < MaxTries /\
                            Do t (Sign req) = (Some resp, None) /\
                            StatusCode resp < 400).
  { intros req body tr Hrun. unfold SendAWSRequest in Hrun.
    destruct (loop' (Z.to_nat (MaxTries - 1)) (Sign req) 1 nil_slice [])
      as [[o tr']|] eqn:Hloop; [|discriminate].
    cbn in Hrun. injection Hrun as -> <-.
    destruct (loop_success_sent _ _ _ _ _ _ _ Hloop) as (t & resp & Hin & Ht & Hdo & _ & Hst).
    exists t, resp. repeat split; try assumption; try lia. right. exact Hin. }
  split.
  - intros tr. unfold Kinesis.Delete.
    destruct (Kinesis.Service s) as [service|]; [|discriminate].
    destruct (NewRequest URLError "POST" _ _) as [[req|] uerr]; [|discriminate].
    destruct (SendAWSRequest _ _ _ _ _ _) as [[[body [e|]|] tr']|] eqn:Hrun;
      try discriminate.
    intros [= <-]. destruct (Hsend _ _ _ Hrun) as (t & resp & H). eauto.
  - intros partitionKey data tr. unfold Kinesis.PutRecord.
    destruct (Kinesis.Service s) as [service|]; [|discriminate].
    destruct (Marshal _) as [bodyAsJson merr].
    destruct (NewRequest URLError "POST" _ _) as [[req|] uerr]; [|discriminate].
    destruct (SendAWSRequest _ _ _ _ _ _) as [[[body [e|]|] tr']|] eqn:Hrun;
      try discriminate.
    intros [= <-]. destruct (Hsend _ _ _ Hrun) as (t & resp & H). eauto.
Qed.

(** X20.  The retry predicate of the tests decides as the loop of
    [SendAWSRequest] does.  For a first response read without error: when
    the predicate says no, the call ends after the one send with the
    body and the predicate's error; when it says yes, the call goes on to
    the backoff sleep of counter 1. *)
Theorem predicate_decides_like_the_loop
        (req : Request) (resp : Response) (body : slice) :
  1 < MaxTries ->
  Do 1 (Sign req) = (Some resp, None) ->
  Body resp = (body, None) ->
  (forall err,
      defaultRetryPredicate Unmarshal (StatusCode resp) body = (false, err) ->
      send req = Some (Return body err,
                       [Signed req; Sent 1 (Sign req); Closed 1])) /\
  (forall err,
      defaultRetryPredicate Unmarshal (StatusCode resp) body = (true, err) ->
      exists o tr,
        send req = Some (o, Signed req :: Sent 1 (Sign req)
                              :: Slept (sleepArg conv_unrep 1) :: tr)).
Proof.
  intros Hmax Hdo Hbody.
  assert (Hv : verdict Unmarshal (Do 1 (Sign req)) =
               match defaultRetryPredicate Unmarshal (StatusCode resp) body with
               | (true, _) => Again body
               | (false, err) => Stop (Return body err) true
               end).
  { unfold verdict, defaultRetryPredicate. rewrite Hdo, Hbody.
    destruct (StatusCode resp <? 400); [reflexivity|].
    destruct (Unmarshal (content body)) as [e [derr|]]; [reflexivity|].
    destruct (negb (Type_ e =? "Throttling")%string && (StatusCode resp <=? 500));
      reflexivity. }
  unfold SendAWSRequest.
  replace (Z.to_nat (MaxTries - 1)) with (S (Z.to_nat (MaxTries - 2))) by lia.
  rewrite loop_iter by assumption. rewrite Hv. split.
  - intros err Hp. rewrite Hp. reflexivity.
  - intros err Hp. rewrite Hp.
    destruct (loop_total (Z.to_nat (MaxTries - 2)) (Sign req) (1 + 1) body [1])
      as [[o tr] Hrun]; [lia|].
    rewrite Hrun. exists o, tr. reflexivity.
Qed.

End Facts.

(** ** The claims on the endpoints of the tests *)

(** C1.  A server that answers 500 with a decodable error document of a
    kind other than "Throttling": the loop body's test [StatusCode <= 500]
    takes the return branch, so the call ends after one send with the
    decoded error and does not retry. *)
Theorem status_500_is_returned_not_retried :
  testRun testHTTP500 5 =
  Some (Return (slice_of_string (marshal internalFailure))
               (Some (ServiceError internalFailure)),
        [Signed testRequest; Sent 1 (testSign testRequest); Closed 1]).
Proof. vm_compute. reflexivity. Qed.

(** C2.  Against the endpoint that always throttles and with the default
    [MaxTries] of 5, the call sends four times, not five, sleeps after
    each of the four, and then reports the exhaustion error. *)
Theorem throttled_call_sends_four_times :
  exists body tr,
    testRun testAWSThrottle 5 =
    Some (Return body (Some (ServiceError exceededRetriesError)), tr) /\
    List.length (sends tr) = 4%nat /\
    sleeps tr = [200000000; 400000000; 800000000; 1600000000].
Proof. eexists _, _. vm_compute. repeat split. Qed.

(** C8.  A transport failure that leaves no response: [client.Do] gives a
    nil response and an error, the [defer] placed before the error check
    reads the body of the nil response, and the call panics instead of
    returning the transport's error. *)
Theorem unreachable_host_panics :
  testRun testUnreachable 5 =
  Some (Panic, [Signed testRequest; Sent 1 (testSign testRequest)]).
Proof. vm_compute. reflexivity. Qed.


(** ** Instances on the endpoints of the tests *)

Lemma exhaustion_reports_sentinel_witness :
  exists body err tr,
    testRun testAWSThrottle 5 = Some (Return body (Some (ServiceError err)), tr) /\
    err = exceededRetriesError /\
    Type_ err = "GawsExceededMaxRetries"%string /\
    Type_ err <> "Throttling"%string.
Proof.
  apply (exhaustion_reports_sentinel testSign testAWSThrottle testUnmarshal testConv 5
                                     testRequest).
  intros t Ht. exists (slice_of_string (marshal throttlingError)).
  exists {| StatusCode := 400;
            Body := (slice_of_string (marshal throttlingError), None) |},
         throttlingError.
  split; [reflexivity|]. split; [reflexivity|]. split; [discriminate|].
  split; [reflexivity|]. left. reflexivity.
Defined.

Lemma success_path_witness :
  testRun testHTTP200 5 =
  Some (Return (slice_of_string "OK") None,
        [Signed testRequest; Sent 1 (testSign testRequest); Closed 1]).
Proof.
  apply (proj1 (success_path testSign testHTTP200 testUnmarshal testConv 5 testRequest)
               {| StatusCode := 200; Body := (slice_of_string "OK", None) |});
    [reflexivity|reflexivity|reflexivity|reflexivity].
Defined.

Lemma client_error_returned_verbatim_witness :
  testRun testHTTP404 5 =
  Some (Return (slice_of_string (marshal notFoundError))
               (Some (ServiceError
                        {| Type_ := "NotFound";
                           Message := "Could not find something" |})),
        [Signed testRequest; Sent 1 (testSign testRequest); Closed 1]).
Proof.
  apply (client_error_returned_verbatim
           testSign testHTTP404 testUnmarshal testConv 5 testRequest
           {| StatusCode := 404;
              Body := (slice_of_string (marshal notFoundError), None) |});
    [reflexivity|reflexivity|reflexivity|split; [discriminate|reflexivity]
     |reflexivity|discriminate].
Defined.

Lemma undecodable_error_body_is_fatal_witness :
  testRun testHTTP404NonJson 5 =
  Some (Return (slice_of_string "I am not JSON!")
               (Some (DecodeError
                        "invalid character 'I' looking for beginning of value")),
        [Signed testRequest; Sent 1 (testSign testRequest); Closed 1]).
Proof.
  apply (proj1 (undecodable_error_body_is_fatal
                  testSign testHTTP404NonJson testUnmarshal testConv 5 testRequest
                  {| StatusCode := 404;
                     Body := (slice_of_string "I am not JSON!", None) |}
                  (slice_of_string "I am not JSON!") zeroError
                  (DecodeError "invalid character 'I' looking for beginning of value")
                  ltac:(discriminate) eq_refl eq_refl));
    reflexivity.
Defined.

Lemma signed_once_and_resent_unchanged_witness :
  exists o tr,
    testRun testAWSThrottle 5 = Some (o, Signed testRequest :: tr) /\
    signings (Signed testRequest :: tr) = [testRequest] /\
    Forall (fun q => q = testSign testRequest) (sends tr) /\
    Forall (fun q => Method q = Method (testSign testRequest) /\
                     URL q = URL (testSign testRequest) /\
                     Header q = Header (testSign testRequest) /\
                     ReqBody q = ReqBody (testSign testRequest)) (sends tr).
Proof.
  exact (signed_once_and_resent_unchanged
           testSign testAWSThrottle testUnmarshal testConv 5 testRequest).
Defined.

Lemma no_attempt_when_MaxTries_at_most_1_witness :
  testRun testHTTP200 1 =
  Some (Return nil_slice (Some (ServiceError exceededRetriesError)),
        [Signed testRequest]) /\
  Type_ exceededRetriesError = "GawsExceededMaxRetries"%string.
Proof.
  apply (no_attempt_when_MaxTries_at_most_1
           testSign testHTTP200 testUnmarshal testConv 1 testRequest).
  discriminate.
Defined.


(** ** Instances of the further properties *)

Ltac throttled :=
  exists {| StatusCode := 400;
            Body := (slice_of_string (marshal throttlingError), None) |},
         throttlingError;
  split; [reflexivity|]; split; [reflexivity|]; split; [discriminate|];
  split; [reflexivity|]; left; reflexivity.

Lemma success_after_retries_witness :
  exists tr,
    testRun testThrottleTwice 5 = Some (Return (slice_of_string "OK") None, tr) /\
    List.length (sends tr) = 3%nat /\
    sleeps tr = map (sleepArg testConv) (counters 1 2).
Proof.
  apply (success_after_retries
           testSign testThrottleTwice testUnmarshal testConv 5 testRequest 2
           (fun _ => slice_of_string (marshal throttlingError))
           {| StatusCode := 200; Body := (slice_of_string "OK", None) |}).
  - intros t Ht. assert (Hcase : t = 1 \/ t = 2) by lia.
    destruct Hcase as [-> | ->]; throttled.
  - reflexivity.
  - reflexivity.
  - reflexivity.
  - reflexivity.
Defined.

Lemma exhaustion_returns_last_body_witness :
  exists tr,
    testRun testAWSThrottle 5 =
    Some (Return (slice_of_string (marshal throttlingError))
                 (Some (ServiceError exceededRetriesError)), tr).
Proof.
  apply (exhaustion_returns_last_body
           testSign testAWSThrottle testUnmarshal testConv 5 testRequest
           (fun _ => slice_of_string (marshal throttlingError))).
  - discriminate.
  - intros t Ht. throttled.
Defined.

Lemma exhaustion_total_backoff_witness :
  exists body tr,
    testRun testAWSThrottle 5 =
    Some (Return body (Some (ServiceError exceededRetriesError)), tr) /\
    total (sleeps tr) = 100 * (2 ^ 5 - 2) * Millisecond.
Proof.
  apply (exhaustion_total_backoff
           testSign testAWSThrottle testUnmarshal testConv 5 testRequest).
  - split; discriminate.
  - intros t Ht. exists (slice_of_string (marshal throttlingError)). throttled.
Defined.

Lemma next_attempt_iff_retried_witness :
  exists r,
    testRun testThrottleTwice 5 = Some r /\
    (In (Sent (1 + 1) (testSign testRequest)) (snd r) <->
     In (Sent 1 (testSign testRequest)) (snd r) /\ 1 + 1 < 5 /\
     exists b, retried testUnmarshal (testThrottleTwice 1 (testSign testRequest)) b).
Proof.
  destruct (testRun testThrottleTwice 5) as [r|] eqn:Hrun;
    [|vm_compute in Hrun; discriminate].
  exists r. split; [reflexivity|].
  apply (next_attempt_iff_retried
           testSign testThrottleTwice testUnmarshal testConv 5 testRequest r 1 Hrun).
  discriminate.
Defined.

Lemma read_error_is_fatal_witness :
  testRun testBrokenBody 5 =
  Some (Return (slice_of_string "O") (Some (ReadError "unexpected EOF")),
        [Signed testRequest; Sent 1 (testSign testRequest); Closed 1]).
Proof.
  apply (proj1 (read_error_is_fatal
                  testSign testBrokenBody testUnmarshal testConv 5 testRequest
                  {| StatusCode := 200;
                     Body := (slice_of_string "O", Some (ReadError "unexpected EOF")) |}
                  (slice_of_string "O") (ReadError "unexpected EOF") eq_refl));
    reflexivity.
Defined.

Lemma Error_injective_witness :
  {| Type_ := "NotFound"; Message := "Could not find something" |} = notFoundError.
Proof.
  apply Error_injective; reflexivity.
Defined.

Lemma dispatchers_agree_witness :
  exists o o' tr tr',
    testRun testThrottleTwice 5 = Some (o, tr) /\
    testRun0 testThrottleTwice 5 = Some (o', tr') /\
    sends tr = sends tr' /\ sleeps tr = sleeps tr' /\ same_end o o'.
Proof.
  apply (dispatchers_agree
           testSign testThrottleTwice testUnmarshal testConv 5 testRequest).
  intros t resp err Ht Hdo. unfold testThrottleTwice, respond in Hdo.
  destruct (t <? 3); injection Hdo as <- <-;
    (split; [discriminate|intros r [= <-]; reflexivity]).
Defined.

Lemma transport_error_then_and_now_witness :
  testRun0 testUnreachable 5 =
  Some (Earlier.Return Earlier.nilResponse
                       (Some (TransportError "dial tcp: connection refused")),
        [Signed testRequest; Sent 1 (testSign testRequest)]) /\
  testRun testUnreachable 5 =
  Some (Panic, [Signed testRequest; Sent 1 (testSign testRequest)]).
Proof.
  apply (transport_error_then_and_now
           testSign testUnreachable testUnmarshal testConv 5 testRequest);
    reflexivity.
Defined.

Lemma getEndpoint_latches_region_witness :
  Earlier.getEndpoint
    Earlier.Regions "eu-west-1"
    (fst (Earlier.getEndpoint Earlier.Regions "us-east-1"
                              {| Earlier.Name := "foo";
                                 Earlier.StreamRegion := EmptyString |}))
  = Earlier.getEndpoint Earlier.Regions "us-east-1"
                        {| Earlier.Name := "foo";
                           Earlier.StreamRegion := EmptyString |}.
Proof.
  apply getEndpoint_latches_region. discriminate.
Defined.


Lemma no_endpoint_nothing_sent_witness :
  Earlier.CreateStream Earlier.Regions "eu-west-1" testSign testHTTP200 testUnmarshal
                       testConv 5 testURLError testCanonical testMarshalCreate "foo" 5 =
  Some (Returned ({| Earlier.Name := EmptyString;
                     Earlier.StreamRegion := "eu-west-1" |},
                  Some (ServiceError Earlier.noEndpoint)), []) /\
  Earlier.PutRecord Earlier.Regions "eu-west-1" testSign testHTTP200 testUnmarshal
                    testConv 5 testURLError testCanonical testEncode testMarshalRecord
                    {| Earlier.Name := "foo"; Earlier.StreamRegion := EmptyString |}
                    "foo" (slice_of_string "Hello world!") =
  Some (Returned ({| Earlier.Name := "foo"; Earlier.StreamRegion := "eu-west-1" |},
                  Some (ServiceError Earlier.noEndpoint)), []) /\
  Earlier.PutRecord Earlier.Regions "us-east-1" testSign testHTTP200 testUnmarshal
                    testConv 5 testURLError testCanonical testEncode testMarshalRecord
                    {| Earlier.Name := "foo"; Earlier.StreamRegion := "eu-west-1" |}
                    "foo" (slice_of_string "Hello world!") =
  Some (Returned ({| Earlier.Name := "foo"; Earlier.StreamRegion := "eu-west-1" |},
                  Some (ServiceError Earlier.noEndpoint)), []).
Proof.
  split; [|split].
  - apply (proj1 (no_endpoint_nothing_sent
                    testSign testHTTP200 testUnmarshal testConv 5 testURLError
                    testCanonical testEncode Earlier.Regions "eu-west-1"
                    testMarshalCreate testMarshalRecord)).
    reflexivity.
  - apply (proj2 (no_endpoint_nothing_sent
                    testSign testHTTP200 testUnmarshal testConv 5 testURLError
                    testCanonical testEncode Earlier.Regions "eu-west-1"
                    testMarshalCreate testMarshalRecord)
                 {| Earlier.Name := "foo"; Earlier.StreamRegion := EmptyString |}).
    reflexivity.
  - apply (proj2 (no_endpoint_nothing_sent
                    testSign testHTTP200 testUnmarshal testConv 5 testURLError
                    testCanonical testEncode Earlier.Regions "us-east-1"
                    testMarshalCreate testMarshalRecord)
                 {| Earlier.Name := "foo"; Earlier.StreamRegion := "eu-west-1" |}).
    reflexivity.
Defined.

Lemma unchecked_operations_panic_on_bad_endpoint_witness :
  (forall partitionKey data,
      Kinesis.PutRecord testSign testHTTP200 testUnmarshal testConv 5 testURLError
                        testCanonical testEncode testMarshal
                        testBadStream partitionKey data = Some (Panicked, [])) /\
  Kinesis.Delete testSign testHTTP200 testUnmarshal testConv 5 testURLError
                 testCanonical testBadStream = Some (Panicked, []).
Proof.
  apply (unchecked_operations_panic_on_bad_endpoint
           testSign testHTTP200 testUnmarshal testConv 5 testURLError testCanonical
           testEncode testMarshal testBadStream testBadService badURLError);
    reflexivity.
Defined.

Lemma checked_operations_return_bad_endpoint_error_witness :
  Kinesis.Describe testSign testHTTP200 testUnmarshal testConv 5 testURLError
                   testCanonical testMarshal testUnmarshalDescription testBadStream =
  Some (Returned (Kinesis.zeroStreamDescription, Some badURLError), []) /\
  Kinesis.GetRecords testSign testHTTP200 testUnmarshal testConv 5 testURLError
                     testCanonical testMarshal testUnmarshalRecords testBadStream
                     {| Kinesis.Limit := 0; Kinesis.ShardIterator := "it-0" |} =
  Some (Returned (Kinesis.zeroGetRecordsResponse, Some badURLError), []) /\
  Kinesis.GetShardIterator testSign testHTTP200 testUnmarshal testConv 5 testURLError
                           testCanonical testMarshal testUnmarshalIterator
                           (testShard testBadStream) "TRIM_HORIZON" EmptyString =
  Some (Returned (EmptyString, Some badURLError), []).
Proof.
  destruct (checked_operations_return_bad_endpoint_error
              testSign testHTTP200 testUnmarshal testConv 5 testURLError
              testCanonical testMarshal testUnmarshalDescription
              testUnmarshalRecords testUnmarshalIterator
              testBadStream testBadService badURLError eq_refl eq_refl)
    as (Hdescribe & Hrecords & Hiterator).
  split; [exact Hdescribe|]. split.
  - exact (Hrecords {| Kinesis.Limit := 0; Kinesis.ShardIterator := "it-0" |}).
  - exact (Hiterator (testShard testBadStream) "TRIM_HORIZON"%string EmptyString eq_refl).
Defined.

Lemma error_means_zero_result_witness :
  Kinesis.zeroStreamDescription = Kinesis.zeroStreamDescription.
Proof.
  apply (proj1 (error_means_zero_result
                  testSign testHTTP404 testUnmarshal testConv 5 testURLError
                  testCanonical testMarshal testUnmarshalDescription
                  testUnmarshalIterator)
               testStream Kinesis.zeroStreamDescription (ServiceError notFoundError)
               [Signed (Kinesis.targeted testCanonical "Kinesis_20131202.DescribeStream"
                          {| Method := "POST"; URL := "http://127.0.0.1:8080";
                             Header := []; ReqBody := list_byte_of_string "{}" |});
                Sent 1 (testSign
                          (Kinesis.targeted testCanonical "Kinesis_20131202.DescribeStream"
                             {| Method := "POST"; URL := "http://127.0.0.1:8080";
                                Header := []; ReqBody := list_byte_of_string "{}" |}));
                Closed 1]).
  vm_compute. reflexivity.
Defined.

Lemma GetRecords_keeps_partial_result_witness :
  exists tr,
    Kinesis.GetRecords testSign testHalfRecords testUnmarshal testConv 5 testURLError
                       testCanonical testMarshal testUnmarshalRecords testStream
                       {| Kinesis.Limit := 0; Kinesis.ShardIterator := "it-0" |} =
    Some (Returned ({| Kinesis.NextShardIterator := "it-1"; Kinesis.Records := [] |},
                    Some (DecodeError "json: cannot unmarshal number into Go value of type []kinesis.Record")),
          tr).
Proof.
  eexists.
  apply (GetRecords_keeps_partial_result
           testSign testHalfRecords testUnmarshal testConv 5 testURLError
           testCanonical testMarshal testUnmarshalRecords
           testStream testService
           {| Kinesis.Limit := 0; Kinesis.ShardIterator := "it-0" |}
           (slice_of_string "{}")
           {| StatusCode := 200; Body := (slice_of_string halfRecords, None) |}
           (slice_of_string halfRecords));
    reflexivity.
Defined.

Lemma nil_error_only_after_success_witness :
  exists req t resp,
    In (Sent t req)
       [Signed (Kinesis.targeted testCanonical "Kinesis_20131202.DeleteStream"
                  {| Method := "POST"; URL := "http://127.0.0.1:8080";
                     Header := []; ReqBody := [] |});
        Sent 1 (testSign
                  (Kinesis.targeted testCanonical "Kinesis_20131202.DeleteStream"
                     {| Method := "POST"; URL := "http://127.0.0.1:8080";
                        Header := []; ReqBody := [] |}));
        Closed 1] /\
    1 <= t < 5 /\
    testHTTP200 t req = (Some resp, None) /\ StatusCode resp < 400.
Proof.
  apply (proj1 (nil_error_only_after_success
                  testSign testHTTP200 testUnmarshal testConv 5 testURLError
                  testCanonical testEncode testMarshal testStream)).
  vm_compute. reflexivity.
Defined.

Lemma predicate_decides_like_the_loop_witness :
  testRun testHTTP500 5 =
  Some (Return (slice_of_string (marshal internalFailure))
               (Some (ServiceError internalFailure)),
        [Signed testRequest; Sent 1 (testSign testRequest); Closed 1]).
Proof.
  apply (proj1 (predicate_decides_like_the_loop
                  testSign testHTTP500 testUnmarshal testConv 5 testRequest
                  {| StatusCode := 500;
                     Body := (slice_of_string (marshal internalFailure), None) |}
                  (slice_of_string (marshal internalFailure))
                  eq_refl eq_refl eq_refl)).
  reflexivity.
Defined.

End Gaws.
